(** * lightning-Hivemind: the strategy adapter and its scheduler shim

    A shallow embedding of [src/lightning_hivemind/strategy.py]:
    the class [HivemindStrategy] (constructor, lazy one-time optimizer
    construction, per-batch hook, collectives, teardown) and the class
    [HiveMindScheduler] (the scheduler wrapper).

    Conventions of the embedding.
    - Python objects mutated through [self] become fields of a record;
      a method is a function in the monad [M], which threads the record,
      returns a value or a raised exception, and writes the calls made
      into the two wrapped libraries (hivemind, Lightning) and into the
      logger to an event list, in program order.
    - Calls into the wrapped libraries are recorded with their arguments
      and are taken to return; what they return is read from the host
      description ([Host]) or kept as an opaque handle.  What Python
      itself raises at a call (a keyword given twice) is modelled.
    - [Optional[T]] is [option T]; a [dict] with string keys is a
      [gmap string _]; Python truthiness is written out ([truthy]). *)

From stdpp Require Import gmap strings list pretty.
From Equations Require Import Equations.
From Stdlib Require Import Ascii ZArith Lia QArith.

Close Scope Q_scope.
Set Default Proof Using "Type".
Set Warnings "-register-all".

(** ** Python values and helpers *)

(** Values that travel through keyword-argument dictionaries. *)
Inductive pyval :=
| PNone
| PBool (b : bool)
| PInt (z : Z)
| PFloat (q : Q)
| PStr (s : string)
| PDict (d : list (string * pyval))
| PObj (name : string).

(** [Optional[bool]] flags and Python's [or], which returns its first
    truthy operand, else its last operand. *)
Definition truthy (o : option bool) : bool :=
  match o with
  | Some true => true
  | _ => false
  end.

Definition py_or (a b : option bool) : option bool :=
  if truthy a then a else b.

Definition of_opt_bool (o : option bool) : pyval :=
  match o with
  | Some b => PBool b
  | None => PNone
  end.

(** [s.split(sep)] for a one-character separator: the fields between the
    separators, empty fields kept; the empty string gives one empty field. *)
Fixpoint split (sep : Ascii.ascii) (s : string) : list string :=
  match s with
  | EmptyString => [EmptyString]
  | String c rest =>
      if Ascii.eqb c sep then EmptyString :: split sep rest
      else match split sep rest with
           | [] => [String c EmptyString]
           | w :: ws => String c w :: ws
           end
  end.

(** [sep.join(l)]. *)
Definition join (sep : string) (l : list string) : string := String.concat sep l.

(** [c in s] for a character [c]. *)
Fixpoint has_char (c : Ascii.ascii) (s : string) : bool :=
  match s with
  | EmptyString => false
  | String c' rest => Ascii.eqb c' c || has_char c rest
  end.

(** ** Exceptions and results *)

Inductive exn :=
| MisconfigurationException (msg : string)
| ValueError (msg : string)
| RecursionError (msg : string)
| IndexError
| AssertionError
| TypeError.

Inductive result (A : Type) :=
| Ok (a : A)
| Raise (e : exn).
Arguments Ok {A} a.
Arguments Raise {A} e.

(** ** The objects of the two wrapped libraries *)

(** A multi-address reported by the peer handle; [is_loopback] is what
    [ipaddress.ip_address(a.values()[0]).is_loopback] answers for it. *)
Record Multiaddr := { maddr_str : string; is_loopback : bool }.

(** The initial peers: a comma-separated string or a list. *)
Inductive peers :=
| PeerStr (s : string)
| PeerList (l : list string).

(** The keyword arguments of [hivemind.DHT(...)]; the handle keeps them. *)
Record DHT := {
  dht_start : bool;
  dht_initial_peers : option peers;
  dht_host_maddrs : list string;
  dht_use_ipfs : bool;
  dht_ensure_bootstrap_success : bool;
  dht_wait_timeout : Z;
  dht_bootstrap_timeout : option Q;
  dht_use_relay : bool;
  dht_use_auto_relay : bool;
  dht_identity_path : option string
}.

(** A [torch.optim.Optimizer] registered by the trainer. *)
Record TorchOptimizer := { opt_class : string; param_groups : list string }.

(** [optimizer=] of [hivemind.Optimizer]: an instance, or its type. *)
Inductive OptimizerArg :=
| ByInstance (o : TorchOptimizer)
| ByType (cls : string).

(** [scheduler_fn]: a callable (or a pre-initialised scheduler); an
    object, always truthy. *)
Record SchedulerFn := { scheduler_fn_name : string }.

(** The keyword arguments of [hivemind.Optimizer(...)]; the handle keeps
    them.  [local_epoch] of the live object is read where it is used. *)
Record HivemindOptimizer := {
  o_dht : DHT;
  o_run_id : string;
  o_params : option (list string);
  o_optimizer : OptimizerArg;
  o_scheduler : option SchedulerFn;
  o_target_batch_size : Z;
  o_batch_size_per_step : option Z;
  o_kwargs : gmap string pyval
}.

(** A learning-rate scheduler of torch: its class decides
    [isinstance(scheduler, ReduceLROnPlateau)]. *)
Inductive scheduler_class := LRSchedulerClass | ReduceLROnPlateauClass.

Record LRScheduler := { sched_class : scheduler_class; sched_name : string }.

(** ** HiveMindScheduler *)

Module HiveMindScheduler.
Local Open Scope Z_scope.

(** The instance: [self.optimizer], [self.scheduler], [self.current_step].
    [S] is the type of the wrapped scheduler object. *)
Record t (S : Type) := {
  optimizer : HivemindOptimizer;
  scheduler : S;
  current_step : Z
}.
Arguments optimizer {S} _.
Arguments scheduler {S} _.
Arguments current_step {S} _.

(** One call [self.scheduler.step(epoch=epoch)] received by the wrapped
    scheduler, with the value [self.current_step] had when it was made. *)
Record forwarded := { epoch_arg : option Z; counter_at_call : Z }.

(** The global step a forwarded call catches up to: the value the
    counter takes right after it. *)
Definition global_step_of (f : forwarded) : Z := counter_at_call f + 1.

Definition __init__ {S} (optimizer : HivemindOptimizer) (scheduler : S) : t S :=
  {| optimizer := optimizer; scheduler := scheduler; current_step := -1 |}.

(** [step]: [while self.current_step < self.optimizer.local_epoch:
    self.scheduler.step(epoch=epoch); self.current_step += 1].
    [local_epoch] is the value the loop test reads from the optimizer; it
    is taken to stay the same for the duration of one call.  The result
    is the instance after the loop and the calls forwarded, in order.
    The loop ends because the distance to [local_epoch] shrinks. *)
Equations? step {S} (local_epoch : Z) (epoch : option Z) (self : t S) : t S * list forwarded
  by wf (Z.to_nat (local_epoch - current_step self)) lt :=
  step local_epoch epoch self with decide (current_step self < local_epoch) => {
    | left _ :=
        let call := {| epoch_arg := epoch; counter_at_call := current_step self |} in
        let self' := {| optimizer := optimizer self;
                        scheduler := scheduler self;
                        current_step := current_step self + 1 |} in
        let '(self'', calls) := step local_epoch epoch self' in
        (self'', call :: calls);
    | right _ := (self, []) }.
Proof. simpl. lia. Qed.

(** A sequence of calls of [step] by the trainer: each carries the
    [local_epoch] the optimizer reports at that moment and the [epoch]
    argument. *)
Fixpoint steps {S} (calls : list (Z * option Z)) (self : t S) : t S * list forwarded :=
  match calls with
  | [] => (self, [])
  | (local_epoch, epoch) :: rest =>
      let '(self', fw) := step local_epoch epoch self in
      let '(self'', fw') := steps rest self' in
      (self'', fw ++ fw')
  end.

(** The optimizer's counter as the trainer observes it: global steps,
    none below [last], that only advance. *)
Fixpoint advancing (last : Z) (calls : list (Z * option Z)) : Prop :=
  match calls with
  | [] => True
  | (e, _) :: rest => last <= e /\ advancing e rest
  end.

(** The instance with its counter replaced. *)
Definition set_current_step {S} (c : Z) (self : t S) : t S :=
  {| optimizer := optimizer self; scheduler := scheduler self; current_step := c |}.

(** The global step last observed by a sequence of calls; [-1], the
    initial counter, when there was none. *)
Definition last_observed (calls : list (Z * option Z)) : Z :=
  List.last (fst <$> calls) (-1).

(** *** The wrapped scheduler and the state dictionaries *)

(** The wrapped scheduler, as far as the wrapper calls it: [step],
    [state_dict] and [load_state_dict].  [D] is the type of its state
    dictionaries. *)
Class Scheduler (S D : Type) := {
  scheduler_step : option Z -> S -> S;
  scheduler_state_dict : S -> D;
  scheduler_load_state_dict : D -> S -> S
}.

Section Wrapped.
Context {S D : Type} `{!Scheduler S D}.

(** The wrapped scheduler after it has received the calls [fw]. *)
Definition deliver (fw : list forwarded) (s : S) : S :=
  foldl (fun s f => scheduler_step (epoch_arg f) s) s fw.

(** [step], with the forwarded calls carried out on [self.scheduler]. *)
Definition step_scheduler (local_epoch : Z) (epoch : option Z) (self : t S) : t S :=
  let '(self', fw) := step local_epoch epoch self in
  {| optimizer := optimizer self';
     scheduler := deliver fw (scheduler self');
     current_step := current_step self' |}.

(** [load_state_dict]: [self.scheduler.load_state_dict(state_dict)]. *)
Definition load_state_dict (state_dict : D) (self : t S) : t S :=
  {| optimizer := optimizer self;
     scheduler := scheduler_load_state_dict state_dict (scheduler self);
     current_step := current_step self |}.

(** [state_dict]: [return self.scheduler.state_dict()]. *)
Definition state_dict (self : t S) : D := scheduler_state_dict (scheduler self).

End Wrapped.

(** *** The attributes copied by the constructor *)

(** [self.__dict__] as [__init__] leaves it: the scheduler's own
    [__dict__] without the keys [step] and [__del__], then the three
    attributes assigned after the copy. *)
Definition instance_dict (scheduler_dict : gmap string pyval)
    (optimizer scheduler : pyval) : gmap string pyval :=
  <["current_step" := PInt (-1)]>
  (<["scheduler" := scheduler]>
  (<["optimizer" := optimizer]>
  (filter (fun kv => kv.1 <> "step" /\ kv.1 <> "__del__") scheduler_dict))).

End HiveMindScheduler.

(** ** HivemindStrategy *)

(** [LightningModule.optimizer_zero_grad]: the implementation bound to the
    module, the base class's or the user's override. *)
Inductive zero_grad_hook :=
| DefaultZeroGrad
| UserZeroGrad (name : string).

(** The module attribute is [None] while the hook is disabled. *)
Record LightningModule := { optimizer_zero_grad : option zero_grad_hook }.

(** [is_overridden("optimizer_zero_grad", module)]: false for no module
    and for an attribute that is [None]. *)
Definition is_overridden_optimizer_zero_grad (m : option LightningModule) : bool :=
  match m with
  | Some {| optimizer_zero_grad := Some (UserZeroGrad _) |} => true
  | _ => false
  end.

(** What [scheduler_config.scheduler] holds: a scheduler of torch, or the
    wrapper put around one. *)
Inductive scheduler_obj :=
| Plain (s : LRScheduler)
| Wrapped (h : HiveMindScheduler.t scheduler_obj).

Record LRSchedulerConfig := { scheduler : scheduler_obj }.

Definition is_ReduceLROnPlateau (s : scheduler_obj) : bool :=
  match s with
  | Plain {| sched_class := ReduceLROnPlateauClass |} => true
  | _ => false
  end.

(** What [self.optimizers] holds: the trainer's optimizers, then the one
    [hivemind.Optimizer] (itself a [torch.optim.Optimizer]). *)
Inductive optimizer_obj :=
| TorchOpt (o : TorchOptimizer)
| HivemindOpt (o : HivemindOptimizer).

(** [optimizer.param_groups] and [type(optimizer)] of a registered
    optimizer; a [hivemind.Optimizer] shows the parameter groups it was
    given. *)
Definition as_torch (o : optimizer_obj) : TorchOptimizer :=
  match o with
  | TorchOpt o => o
  | HivemindOpt h =>
      {| opt_class := "Optimizer";
         param_groups := match o_params h, o_optimizer h with
                         | Some p, _ => p
                         | None, ByInstance o => param_groups o
                         | None, ByType _ => []
                         end |}
  end.

(** What the constructor reads from the process it runs in. *)
Record Host := {
  platform_system : string;
  environ : gmap string string;
  visible_maddrs : list Multiaddr
}.

(** Calls into the wrapped libraries and the logger. *)
Inductive event :=
| Super_init
| DHT_new (d : DHT)
| Log_info (msg : string)
| Warn (msg : string)
| Optimizer_new (o : HivemindOptimizer)
| Load_state_from_peers
| Optimizer_shutdown (o : HivemindOptimizer)
| DHT_shutdown (d : DHT)
| Super_teardown.

Module HivemindStrategy.

Definition INITIAL_PEERS_ENV : string := "PL_INITIAL_PEERS".

(** The arguments of [__init__]; [None] where the default is [None]. *)
Record InitArgs := {
  target_batch_size : Z;
  run_id : string;
  batch_size : option Z;
  delay_state_averaging : bool;
  delay_optimizer_step : option bool;
  delay_grad_averaging : bool;
  offload_optimizer : option bool;
  reuse_grad_buffers : bool;
  scheduler_fn : option SchedulerFn;
  matchmaking_time : Q;
  averaging_timeout : option Q;
  verbose : bool;
  averager_opts : option (list (string * pyval));
  host_maddrs : option (list string);
  initial_peers : option peers;
  use_ipfs : bool;
  wait_timeout : Z;
  bootstrap_timeout : option Q;
  use_relay : bool;
  use_auto_relay : bool;
  identity_path : option string;
  optimizer_kwargs : gmap string pyval
}.

(** The instance.  The last three fields are the attributes of the base
    class [Strategy] that the trainer fills in. *)
Record t := {
  _initial_peers : option peers;
  _target_batch_size : Z;
  _batch_size : option Z;
  _scheduler_fn : option SchedulerFn;
  _require_scheduler_fn : option bool;
  _opt : option HivemindOptimizer;
  _optimizer_zero_grad_original : option zero_grad_hook;
  _run_id : string;
  _reuse_grad_buffers : bool;
  _optimizer_kwargs : gmap string pyval;
  dht : DHT;
  _hivemind_initialized : bool;
  optimizers : list optimizer_obj;
  lr_scheduler_configs : list LRSchedulerConfig;
  lightning_module : option LightningModule
}.

(** Attribute assignments. *)
Definition set__batch_size (v : option Z) (s : t) : t :=
  {| _initial_peers := _initial_peers s; _target_batch_size := _target_batch_size s;
     _batch_size := v; _scheduler_fn := _scheduler_fn s;
     _require_scheduler_fn := _require_scheduler_fn s; _opt := _opt s;
     _optimizer_zero_grad_original := _optimizer_zero_grad_original s;
     _run_id := _run_id s; _reuse_grad_buffers := _reuse_grad_buffers s;
     _optimizer_kwargs := _optimizer_kwargs s; dht := dht s;
     _hivemind_initialized := _hivemind_initialized s; optimizers := optimizers s;
     lr_scheduler_configs := lr_scheduler_configs s;
     lightning_module := lightning_module s |}.

Definition set__opt (v : option HivemindOptimizer) (s : t) : t :=
  {| _initial_peers := _initial_peers s; _target_batch_size := _target_batch_size s;
     _batch_size := _batch_size s; _scheduler_fn := _scheduler_fn s;
     _require_scheduler_fn := _require_scheduler_fn s; _opt := v;
     _optimizer_zero_grad_original := _optimizer_zero_grad_original s;
     _run_id := _run_id s; _reuse_grad_buffers := _reuse_grad_buffers s;
     _optimizer_kwargs := _optimizer_kwargs s; dht := dht s;
     _hivemind_initialized := _hivemind_initialized s; optimizers := optimizers s;
     lr_scheduler_configs := lr_scheduler_configs s;
     lightning_module := lightning_module s |}.

Definition set__optimizer_zero_grad_original (v : option zero_grad_hook) (s : t) : t :=
  {| _initial_peers := _initial_peers s; _target_batch_size := _target_batch_size s;
     _batch_size := _batch_size s; _scheduler_fn := _scheduler_fn s;
     _require_scheduler_fn := _require_scheduler_fn s; _opt := _opt s;
     _optimizer_zero_grad_original := v;
     _run_id := _run_id s; _reuse_grad_buffers := _reuse_grad_buffers s;
     _optimizer_kwargs := _optimizer_kwargs s; dht := dht s;
     _hivemind_initialized := _hivemind_initialized s; optimizers := optimizers s;
     lr_scheduler_configs := lr_scheduler_configs s;
     lightning_module := lightning_module s |}.

Definition set__hivemind_initialized (v : bool) (s : t) : t :=
  {| _initial_peers := _initial_peers s; _target_batch_size := _target_batch_size s;
     _batch_size := _batch_size s; _scheduler_fn := _scheduler_fn s;
     _require_scheduler_fn := _require_scheduler_fn s; _opt := _opt s;
     _optimizer_zero_grad_original := _optimizer_zero_grad_original s;
     _run_id := _run_id s; _reuse_grad_buffers := _reuse_grad_buffers s;
     _optimizer_kwargs := _optimizer_kwargs s; dht := dht s;
     _hivemind_initialized := v; optimizers := optimizers s;
     lr_scheduler_configs := lr_scheduler_configs s;
     lightning_module := lightning_module s |}.

Definition set_optimizers (v : list optimizer_obj) (s : t) : t :=
  {| _initial_peers := _initial_peers s; _target_batch_size := _target_batch_size s;
     _batch_size := _batch_size s; _scheduler_fn := _scheduler_fn s;
     _require_scheduler_fn := _require_scheduler_fn s; _opt := _opt s;
     _optimizer_zero_grad_original := _optimizer_zero_grad_original s;
     _run_id := _run_id s; _reuse_grad_buffers := _reuse_grad_buffers s;
     _optimizer_kwargs := _optimizer_kwargs s; dht := dht s;
     _hivemind_initialized := _hivemind_initialized s; optimizers := v;
     lr_scheduler_configs := lr_scheduler_configs s;
     lightning_module := lightning_module s |}.

Definition set_lr_scheduler_configs (v : list LRSchedulerConfig) (s : t) : t :=
  {| _initial_peers := _initial_peers s; _target_batch_size := _target_batch_size s;
     _batch_size := _batch_size s; _scheduler_fn := _scheduler_fn s;
     _require_scheduler_fn := _require_scheduler_fn s; _opt := _opt s;
     _optimizer_zero_grad_original := _optimizer_zero_grad_original s;
     _run_id := _run_id s; _reuse_grad_buffers := _reuse_grad_buffers s;
     _optimizer_kwargs := _optimizer_kwargs s; dht := dht s;
     _hivemind_initialized := _hivemind_initialized s; optimizers := optimizers s;
     lr_scheduler_configs := v;
     lightning_module := lightning_module s |}.

Definition set_lightning_module (v : option LightningModule) (s : t) : t :=
  {| _initial_peers := _initial_peers s; _target_batch_size := _target_batch_size s;
     _batch_size := _batch_size s; _scheduler_fn := _scheduler_fn s;
     _require_scheduler_fn := _require_scheduler_fn s; _opt := _opt s;
     _optimizer_zero_grad_original := _optimizer_zero_grad_original s;
     _run_id := _run_id s; _reuse_grad_buffers := _reuse_grad_buffers s;
     _optimizer_kwargs := _optimizer_kwargs s; dht := dht s;
     _hivemind_initialized := _hivemind_initialized s; optimizers := optimizers s;
     lr_scheduler_configs := lr_scheduler_configs s;
     lightning_module := v |}.

(** *** The method monad: state, exceptions, emitted events *)

Record outcome (A : Type) := {
  res : result A;
  final : t;
  emitted : list event
}.
Arguments res {A} _.
Arguments final {A} _.
Arguments emitted {A} _.

Definition M (A : Type) : Type := t -> outcome A.

Definition ret {A} (a : A) : M A :=
  fun s => {| res := Ok a; final := s; emitted := [] |}.

Definition raise {A} (e : exn) : M A :=
  fun s => {| res := Raise e; final := s; emitted := [] |}.

Definition bind {A B} (m : M A) (k : A -> M B) : M B :=
  fun s =>
    match m s with
    | {| res := Ok a; final := s'; emitted := evs |} =>
        match k a s' with
        | {| res := r; final := s''; emitted := evs' |} =>
            {| res := r; final := s''; emitted := evs ++ evs' |}
        end
    | {| res := Raise e; final := s'; emitted := evs |} =>
        {| res := Raise e; final := s'; emitted := evs |}
    end.

Definition get : M t :=
  fun s => {| res := Ok s; final := s; emitted := [] |}.

Definition modify (f : t -> t) : M unit :=
  fun s => {| res := Ok tt; final := f s; emitted := [] |}.

Definition emit (e : event) : M unit :=
  fun s => {| res := Ok tt; final := s; emitted := [e] |}.

Definition when (b : bool) (m : M unit) : M unit :=
  if b then m else ret tt.

Notation "'let*' x ':=' m 'in' k" := (bind m (fun x => k))
  (at level 10, x pattern, m at level 100, k at level 200).

Definition run {A} (m : M A) (s : t) : outcome A := m s.

(** *** Construction *)

(** [_parse_env_initial_peers], as a function of [os.environ] and of the
    attribute [self._initial_peers] it reads and assigns. *)
Definition _parse_env_initial_peers (environ : gmap string string)
    (self_initial_peers : option peers) : option peers :=
  let initial_peers :=
    match environ !! INITIAL_PEERS_ENV with
    | Some v => Some (PeerStr v)
    | None => self_initial_peers
    end in
  match initial_peers with
  | Some (PeerStr s) => Some (PeerList (split ","%char s))
  | _ => self_initial_peers
  end.

Definition of_opt_float (o : option Q) : pyval :=
  match o with
  | Some q => PFloat q
  | None => PNone
  end.

Definition of_opt_dict (o : option (list (string * pyval))) : pyval :=
  match o with
  | Some d => PDict d
  | None => PNone
  end.

(** [dict(matchmaking_time=..., ..., **optimizer_kwargs)].  The named
    keys are parameters of [__init__], so [optimizer_kwargs] has none. *)
Definition make_optimizer_kwargs (a : InitArgs) : gmap string pyval :=
  <["matchmaking_time" := PFloat (matchmaking_time a)]>
  (<["averaging_timeout" := of_opt_float (averaging_timeout a)]>
  (<["delay_optimizer_step" := of_opt_bool (delay_optimizer_step a)]>
  (<["delay_state_averaging" := PBool (delay_state_averaging a)]>
  (<["delay_grad_averaging" := PBool (delay_grad_averaging a)]>
  (<["offload_optimizer" := of_opt_bool (offload_optimizer a)]>
  (<["averager_opts" :=
       match averaging_timeout a with
       | Some _ => of_opt_dict (averager_opts a)
       | None => PDict [("request_timeout", PFloat 1%Q)]
       end]>
  (<["verbose" := PBool (verbose a)]>
  (<["reuse_grad_buffers" := PBool (reuse_grad_buffers a)]>
  (optimizer_kwargs a))))))))).

Definition default_host_maddrs : list string :=
  ["/ip4/0.0.0.0/tcp/0"; "/ip4/0.0.0.0/udp/0/quic"].

Definition make_dht (a : InitArgs) : DHT :=
  {| dht_start := true;
     dht_initial_peers := initial_peers a;
     dht_host_maddrs := match host_maddrs a with
                        | Some l => l
                        | None => default_host_maddrs
                        end;
     dht_use_ipfs := use_ipfs a;
     dht_ensure_bootstrap_success := true;
     dht_wait_timeout := wait_timeout a;
     dht_bootstrap_timeout := bootstrap_timeout a;
     dht_use_relay := use_relay a;
     dht_use_auto_relay := use_auto_relay a;
     dht_identity_path := identity_path a |}.

Definition nl : string := String "010"%char EmptyString.

Definition connect_message (visible_addresses : list string) : string :=
  nl +:+ "Other machines can connect running the same command:" +:+ nl
  +:+ "INITIAL_PEERS=" +:+ join "," visible_addresses +:+ " python ..." +:+ nl
  +:+ "or passing the peers to the strategy:" +:+ nl
  +:+ "HivemindStrategy(initial_peers='" +:+ join "," visible_addresses +:+ "')".

Definition not_linux_message : string :=
  "To use the `HivemindStrategy`, you must have Hivemind installed and be running on Linux."
  +:+ " Install it by running `pip install -U hivemind`.".

(** [__init__]: the instance or the exception, and the calls made.
    [hivemind.DHT], [get_visible_maddrs] and [ipaddress.ip_address] are
    taken to return; where they raise, the constructor raises with them,
    which the model leaves out. *)
Definition __init__ (host : Host) (a : InitArgs) : result t * list event :=
  if negb (String.eqb (platform_system host) "Linux")
  then (Raise (MisconfigurationException not_linux_message), [])
  else
    let d := make_dht a in
    let visible_addresses :=
      map maddr_str (filter (fun m => is_loopback m = false) (visible_maddrs host)) in
    let self :=
      {| _initial_peers := _parse_env_initial_peers (environ host) (initial_peers a);
         _target_batch_size := target_batch_size a;
         _batch_size := batch_size a;
         _scheduler_fn := scheduler_fn a;
         _require_scheduler_fn :=
           py_or (py_or (delay_optimizer_step a) (Some (delay_state_averaging a)))
                 (offload_optimizer a);
         _opt := None;
         _optimizer_zero_grad_original := None;
         _run_id := run_id a;
         _reuse_grad_buffers := reuse_grad_buffers a;
         _optimizer_kwargs := make_optimizer_kwargs a;
         dht := d;
         _hivemind_initialized := false;
         optimizers := [];
         lr_scheduler_configs := [];
         lightning_module := None |} in
    (Ok self,
     [Super_init; DHT_new d]
     ++ match initial_peers a with
        | None => [Log_info (connect_message visible_addresses)]
        | Some _ => []
        end).

(** *** One-time optimizer construction *)

Definition one_optimizer_message : string :=
  "Hivemind only supports training with one optimizer.".

Definition scheduler_fn_warning : string :=
  "Enabling `delay_optimizer_step`, `delay_state_averaging` or `offload_optimizer` "
  +:+ "requires a `scheduler_fn` to be passed to the strategy if a scheduler is being used "
  +:+ "(this is because the optimizer is re-created within Hivemind).".

Definition zero_grad_warning : string :=
  "You have overridden `optimizer_zero_grad` which will be disabled."
  +:+ " When `HivemindStrategy(reuse_grad_buffers=True)`, the optimizer cannot call zero grad,"
  +:+ " as this would delete the gradients before they are averaged.".

Definition plateau_message : string :=
  "The `ReduceLROnPlateau` scheduler is not currently supported with `HivemindStrategy`.".

Definition _disable_zero_grad : M unit :=
  let* self := get in
  let lightning_module := lightning_module self in
  let* _ := when (is_overridden_optimizer_zero_grad lightning_module)
                 (emit (Warn zero_grad_warning)) in
  match lightning_module with
  | None => raise AssertionError
  | Some _ => modify (set_lightning_module (Some {| optimizer_zero_grad := None |}))
  end.

(** The loop of [_wrap_schedulers] over the configurations: each one is
    assigned in place, so those before a raising one stay wrapped. *)
Fixpoint wrap_each (opt : HivemindOptimizer) (configs : list LRSchedulerConfig)
    : list LRSchedulerConfig * option exn :=
  match configs with
  | [] => ([], None)
  | scheduler_config :: rest =>
      let scheduler := scheduler scheduler_config in
      if is_ReduceLROnPlateau scheduler
      then (scheduler_config :: rest, Some (ValueError plateau_message))
      else
        let '(rest', e) := wrap_each opt rest in
        ({| scheduler := Wrapped (HiveMindScheduler.__init__ opt scheduler) |} :: rest', e)
  end.

Definition _wrap_schedulers (opt : HivemindOptimizer) : M unit :=
  let* self := get in
  let '(configs, e) := wrap_each opt (lr_scheduler_configs self) in
  let* _ := modify (set_lr_scheduler_configs configs) in
  match e with
  | Some e => raise e
  | None => ret tt
  end.

(** The keywords that [_initialize_hivemind] passes to
    [hivemind.Optimizer] by name, before [**self._optimizer_kwargs]. *)
Definition explicit_kwargs : list string :=
  ["dht"; "run_id"; "params"; "optimizer"; "scheduler"; "target_batch_size";
   "batch_size_per_step"].

(** Whether a dictionary passed with [**] repeats one of them: the call
    then raises [TypeError] (multiple values for a keyword argument), and
    the callee is not entered. *)
Definition repeats_explicit (kwargs : gmap string pyval) : bool :=
  existsb (fun k => bool_decide (is_Some (kwargs !! k))) explicit_kwargs.
Arguments repeats_explicit : simpl never.

(** [_initialize_hivemind].  The call of [hivemind.Optimizer] raises
    [TypeError] when [self._optimizer_kwargs] repeats one of its explicit
    keywords; otherwise it is recorded and taken to return. *)
Definition _initialize_hivemind : M unit :=
  let* self := get in
  if 1 <? length (optimizers self)
  then raise (MisconfigurationException one_optimizer_message)
  else
    match optimizers self with
    | [] => raise IndexError
    | optimizer :: _ =>
        let required := truthy (_require_scheduler_fn self) in
        let* _ := when (required && bool_decide (_scheduler_fn self = None))
                       (emit (Warn scheduler_fn_warning)) in
        let scheduler := if required then _scheduler_fn self else None in
        let params := if required then Some (param_groups (as_torch optimizer)) else None in
        let optimizer := if required then ByType (opt_class (as_torch optimizer))
                         else ByInstance (as_torch optimizer) in
        let opt :=
          {| o_dht := dht self;
             o_run_id := _run_id self;
             o_params := params;
             o_optimizer := optimizer;
             o_scheduler := scheduler;
             o_target_batch_size := _target_batch_size self;
             o_batch_size_per_step := _batch_size self;
             o_kwargs := _optimizer_kwargs self |} in
        if repeats_explicit (_optimizer_kwargs self)
        then raise TypeError
        else
        let* _ := emit (Optimizer_new opt) in
        let* _ := match _scheduler_fn self with
                  | None => _wrap_schedulers opt
                  | Some _ => ret tt
                  end in
        let* _ := emit Load_state_from_peers in
        let* _ := modify (set_optimizers [HivemindOpt opt]) in
        let* _ := modify (set__opt (Some opt)) in
        if _reuse_grad_buffers self
        then
          let* self := get in
          match lightning_module self with
          | None => raise AssertionError
          | Some m =>
              let* _ := modify (set__optimizer_zero_grad_original (optimizer_zero_grad m)) in
              _disable_zero_grad
          end
        else ret tt
    end.

(** *** The per-batch hook *)

Definition batch_size_message : string :=
  "We tried to infer the batch size from the first batch of data. "
  +:+ "Please provide the batch size to the Strategy by "
  +:+ "``Trainer(strategy=HivemindStrategy(batch_size=x))``. ".

Section Hooks.
(** Lightning's [extract_batch_size] and the batches it reads. *)
Context {Batch : Type} (extract_batch_size : Batch -> result Z).

Definition on_train_batch_start (batch : Batch) (batch_idx dataloader_idx : Z) : M unit :=
  let* self := get in
  if negb (_hivemind_initialized self)
  then
    let* _ := modify (set__hivemind_initialized true) in
    let* _ :=
      match _batch_size self with
      | None =>
          match extract_batch_size batch with
          | Ok n =>
              let* _ := modify (set__batch_size (Some n)) in
              emit (Log_info
                      ("Found per machine batch size automatically from the batch: "
                       +:+ pretty n))
          | Raise (MisconfigurationException _) | Raise (RecursionError _) =>
              raise (MisconfigurationException batch_size_message)
          | Raise e => raise e
          end
      | Some _ => ret tt
      end in
    _initialize_hivemind
  else ret tt.

(** The trainer's loop over the batches of a run, as far as this
    strategy sees it: the hook before each batch, until one raises. *)
Fixpoint train_batches (batches : list Batch) (batch_idx : Z) : M unit :=
  match batches with
  | [] => ret tt
  | batch :: rest =>
      let* _ := on_train_batch_start batch batch_idx 0 in
      train_batches rest (batch_idx + 1)
  end.
End Hooks.

(** What the trainer attaches to the strategy before training. *)
Definition connect (opts : list TorchOptimizer) (configs : list LRSchedulerConfig)
    (module : option LightningModule) (self : t) : t :=
  set_lightning_module module
    (set_lr_scheduler_configs configs (set_optimizers (map TorchOpt opts) self)).

(** *** Collectives *)

Definition reduce {T} (tensor : T) (args : list pyval) (kwargs : gmap string pyval) : M T :=
  ret tensor.

Definition all_gather {T} (tensor : T) (group : option pyval) (sync_grads : bool) : M T :=
  ret tensor.

Definition barrier (args : list pyval) (kwargs : gmap string pyval) : M unit :=
  ret tt.

Definition broadcast {T} (obj : T) (src : Z) : M T :=
  ret obj.

(** *** Teardown *)

Definition teardown : M unit :=
  let* self := get in
  let* _ :=
    match _optimizer_zero_grad_original self, lightning_module self with
    | Some original, Some _ =>
        modify (set_lightning_module (Some {| optimizer_zero_grad := Some original |}))
    | _, _ => ret tt
    end in
  let* _ :=
    match _opt self with
    | Some opt => emit (Optimizer_shutdown opt)
    | None => ret tt
    end in
  let* _ := emit (Log_info "Shutting down hivemind DHT.") in
  let* _ := emit (DHT_shutdown (dht self)) in
  emit Super_teardown.

(** *** Measures used by the statements *)

(** How often the warning [msg] occurs among emitted events. *)
Definition is_warn (msg : string) (e : event) : bool :=
  match e with
  | Warn m => String.eqb m msg
  | _ => false
  end.

Definition count_warn (msg : string) (evs : list event) : nat :=
  length (List.filter (is_warn msg) evs).

(** The state in which the first hook starts one-time construction:
    the flag set, and the batch size assigned when it was inferred. *)
Definition before_construction (self : t) (inferred : option Z) : t :=
  match inferred with
  | Some n => set__batch_size (Some n) (set__hivemind_initialized true self)
  | None => set__hivemind_initialized true self
  end.

(** *** Peers *)

(** [num_peers]; [reported] is what
    [opt.tracker.global_progress.num_peers] answers for an optimizer. *)
Definition num_peers (reported : HivemindOptimizer -> Z) (self : t) : Z :=
  match _opt self with
  | Some opt => reported opt
  | None => 1
  end.

(** *** Further measures used by the statements *)

(** The [hivemind.Optimizer] that one-time construction builds from the
    strategy and the registered optimizer. *)
Definition constructed (self : t) (registered : optimizer_obj) : HivemindOptimizer :=
  let required := truthy (_require_scheduler_fn self) in
  {| o_dht := dht self;
     o_run_id := _run_id self;
     o_params := if required then Some (param_groups (as_torch registered)) else None;
     o_optimizer := if required then ByType (opt_class (as_torch registered))
                    else ByInstance (as_torch registered);
     o_scheduler := if required then _scheduler_fn self else None;
     o_target_batch_size := _target_batch_size self;
     o_batch_size_per_step := _batch_size self;
     o_kwargs := _optimizer_kwargs self |}.

(** A scheduler configuration with its scheduler put in a new wrapper. *)
Definition wrap (opt : HivemindOptimizer) (config : LRSchedulerConfig) : LRSchedulerConfig :=
  {| scheduler := Wrapped (HiveMindScheduler.__init__ opt (scheduler config)) |}.

Definition is_optimizer_new (e : event) : bool :=
  match e with
  | Optimizer_new _ => true
  | _ => false
  end.

Definition is_load_state (e : event) : bool :=
  match e with
  | Load_state_from_peers => true
  | _ => false
  end.

Definition is_dht_new (e : event) : bool :=
  match e with
  | DHT_new _ => true
  | _ => false
  end.

Definition count_events (p : event -> bool) (evs : list event) : nat :=
  length (List.filter p evs).


End HivemindStrategy.

(** ** Device placement and setup *)

(** [root_device], [model_to_device] and [setup] of [HivemindStrategy]
    read and assign attributes of the base class: the accelerator, the
    model and the precision plugin. *)
Module Placement.

Inductive accelerator_obj :=
| CUDAAccelerator
| CPUAccelerator
| OtherAccelerator (class_repr : string).

Inductive device :=
| cuda (index : Z)
| cpu.

(** The model: where [model.to(device)] last put it. *)
Record Model := { placed_on : option device }.

Inductive scaler_obj :=
| GradScaler_of_torch
| GradScaler_of_hivemind.

Record PrecisionPlugin := { precision : string; scaler : option scaler_obj }.

Record t := {
  accelerator : accelerator_obj;
  model : option Model;
  precision_plugin : PrecisionPlugin
}.

(** Calls made by [setup]. *)
Inductive call :=
| Model_to (d : device)
| Super_setup
| GradScaler_new.

Definition unknown_accelerator_message (class_repr : string) : string :=
  "Was unable to infer device type from the accelerator: " +:+ class_repr +:+ ".".

(** [root_device]; [current_device] is what [torch.cuda.current_device()]
    answers. *)
Definition root_device (current_device : Z) (self : t) : result device :=
  match accelerator self with
  | CUDAAccelerator => Ok (cuda current_device)
  | CPUAccelerator => Ok cpu
  | OtherAccelerator class_repr =>
      Raise (MisconfigurationException (unknown_accelerator_message class_repr))
  end.

(** [model_to_device]: the assertion, then [self.model.to(self.root_device)]. *)
Definition model_to_device (current_device : Z) (self : t) : result unit * t * list call :=
  match model self with
  | None => (Raise AssertionError, self, [])
  | Some _ =>
      match root_device current_device self with
      | Raise e => (Raise e, self, [])
      | Ok d =>
          (Ok tt,
           {| accelerator := accelerator self;
              model := Some {| placed_on := Some d |};
              precision_plugin := precision_plugin self |},
           [Model_to d])
      end
  end.

(** [setup]: [model_to_device()], [super().setup(trainer)], and the
    gradient scaler of hivemind when the precision is ["16"]. *)
Definition setup (current_device : Z) (self : t) : result unit * t * list call :=
  match model_to_device current_device self with
  | (Raise e, self', calls) => (Raise e, self', calls)
  | (Ok _, self', calls) =>
      if String.eqb (precision (precision_plugin self')) "16"
      then (Ok tt,
            {| accelerator := accelerator self';
               model := model self';
               precision_plugin :=
                 {| precision := precision (precision_plugin self');
                    scaler := Some GradScaler_of_hivemind |} |},
            calls ++ [Super_setup; GradScaler_new])
      else (Ok tt, self', calls ++ [Super_setup])
  end.

End Placement.

(** ** The specification's wording, for comparison *)

(** The resolution order of the initial peers as the specification
    words it: the explicit constructor argument, else the environment
    variable split on commas. *)
Definition resolution_as_specified (environ : gmap string string)
    (explicit : option peers) : option peers :=
  match explicit with
  | Some p => Some p
  | None =>
      match environ !! HivemindStrategy.INITIAL_PEERS_ENV with
      | Some v => Some (PeerList (split ","%char v))
      | None => None
      end
  end.

(** ** Sample inputs *)

Module Samples.
Import HivemindStrategy.

Definition default_args : InitArgs :=
  {| target_batch_size := 1; run_id := "lightning_run"; batch_size := None;
     delay_state_averaging := false; delay_optimizer_step := None;
     delay_grad_averaging := false; offload_optimizer := None;
     reuse_grad_buffers := false; scheduler_fn := None;
     matchmaking_time := 5%Q; averaging_timeout := Some 30%Q; verbose := false;
     averager_opts := None; host_maddrs := None; initial_peers := None;
     use_ipfs := false; wait_timeout := 3; bootstrap_timeout := None;
     use_relay := true; use_auto_relay := false; identity_path := None;
     optimizer_kwargs := ∅ |}.

Definition linux : Host :=
  {| platform_system := "Linux"; environ := ∅;
     visible_maddrs := [ {| maddr_str := "/ip4/127.0.0.1/tcp/4001"; is_loopback := true |};
                         {| maddr_str := "/ip4/10.0.0.7/tcp/4001"; is_loopback := false |} ] |}.

Definition linux_with_peers : Host :=
  {| platform_system := "Linux";
     environ := {[ INITIAL_PEERS_ENV := "peerA,peerB" ]};
     visible_maddrs := visible_maddrs linux |}.

Definition explicit_peers : peers := PeerList ["/ip4/10.0.0.9/tcp/4001/p2p/QmPeer"].

Definition with_initial_peers (p : option peers) (a : InitArgs) : InitArgs :=
  {| target_batch_size := target_batch_size a; run_id := run_id a;
     batch_size := batch_size a; delay_state_averaging := delay_state_averaging a;
     delay_optimizer_step := delay_optimizer_step a;
     delay_grad_averaging := delay_grad_averaging a;
     offload_optimizer := offload_optimizer a;
     reuse_grad_buffers := reuse_grad_buffers a; scheduler_fn := scheduler_fn a;
     matchmaking_time := matchmaking_time a; averaging_timeout := averaging_timeout a;
     verbose := verbose a; averager_opts := averager_opts a;
     host_maddrs := host_maddrs a; initial_peers := p;
     use_ipfs := use_ipfs a; wait_timeout := wait_timeout a;
     bootstrap_timeout := bootstrap_timeout a; use_relay := use_relay a;
     use_auto_relay := use_auto_relay a; identity_path := identity_path a;
     optimizer_kwargs := optimizer_kwargs a |}.

(** Flags of the delay and offload family, a batch size of 4, the rest
    as [default_args]. *)
Definition with_flags (state : bool) (step : option bool) (grad : bool)
    (offload : option bool) (reuse : bool) : InitArgs :=
  {| target_batch_size := 1; run_id := "lightning_run"; batch_size := Some 4%Z;
     delay_state_averaging := state; delay_optimizer_step := step;
     delay_grad_averaging := grad; offload_optimizer := offload;
     reuse_grad_buffers := reuse; scheduler_fn := None;
     matchmaking_time := 5%Q; averaging_timeout := Some 30%Q; verbose := false;
     averager_opts := None; host_maddrs := None; initial_peers := None;
     use_ipfs := false; wait_timeout := 3; bootstrap_timeout := None;
     use_relay := true; use_auto_relay := false; identity_path := None;
     optimizer_kwargs := ∅ |}.

Definition o_sample : HivemindOptimizer :=
  {| o_dht := make_dht default_args; o_run_id := "lightning_run"; o_params := None;
     o_optimizer := ByInstance {| opt_class := "SGD"; param_groups := ["layer"] |};
     o_scheduler := None; o_target_batch_size := 1; o_batch_size_per_step := Some 4%Z;
     o_kwargs := make_optimizer_kwargs default_args |}.

Definition step_lr : scheduler_obj :=
  Plain {| sched_class := LRSchedulerClass; sched_name := "StepLR" |}.

Definition sgd : TorchOptimizer := {| opt_class := "SGD"; param_groups := ["layer"] |}.

Definition exponential_lr : LRSchedulerConfig :=
  {| scheduler := Plain {| sched_class := LRSchedulerClass; sched_name := "ExponentialLR" |} |}.

Definition plateau : LRSchedulerConfig :=
  {| scheduler := Plain {| sched_class := ReduceLROnPlateauClass;
                           sched_name := "ReduceLROnPlateau" |} |}.

Definition user_module : LightningModule :=
  {| optimizer_zero_grad := Some (UserZeroGrad "TestModel.optimizer_zero_grad") |}.

(** A scheduler that counts its steps in [last_epoch], which is also its
    state dictionary; [step(epoch=k)] sets the count to [k]. *)
Definition counting : HiveMindScheduler.Scheduler Z Z :=
  {| HiveMindScheduler.scheduler_step :=
       fun epoch last_epoch => match epoch with
                               | Some k => k
                               | None => (last_epoch + 1)%Z
                               end;
     HiveMindScheduler.scheduler_state_dict := fun last_epoch => last_epoch;
     HiveMindScheduler.scheduler_load_state_dict := fun d _ => d |}.

Definition gpu_half : Placement.t :=
  {| Placement.accelerator := Placement.CUDAAccelerator;
     Placement.model := Some {| Placement.placed_on := None |};
     Placement.precision_plugin :=
       {| Placement.precision := "16";
          Placement.scaler := Some Placement.GradScaler_of_torch |} |}.

Definition tpu : Placement.t :=
  {| Placement.accelerator := Placement.OtherAccelerator "<class 'XLAAccelerator'>";
     Placement.model := Some {| Placement.placed_on := None |};
     Placement.precision_plugin :=
       {| Placement.precision := "32"; Placement.scaler := None |} |}.

(** Batches for which Lightning's utility finds no size. *)
Definition no_size (batch : nat) : result Z :=
  Raise (MisconfigurationException "We could not infer the batch_size from the batch.").

(** Batches that are their own size. *)
Definition size_of (batch : nat) : result Z := Ok (Z.of_nat batch).
End Samples.

(** * Evaluation on small inputs *)

Example split_peers : split ","%char "peerA,peerB" = ["peerA"; "peerB"].
Proof. reflexivity. Qed.

Example split_empty : split ","%char EmptyString = [EmptyString].
Proof. reflexivity. Qed.

Example split_gap : split ","%char "a,,b," = ["a"; EmptyString; "b"; EmptyString].
Proof. reflexivity. Qed.

Example step_first :
  snd (HiveMindScheduler.step 0 None
         (HiveMindScheduler.__init__ Samples.o_sample Samples.step_lr))
  = [ {| HiveMindScheduler.epoch_arg := None; HiveMindScheduler.counter_at_call := -1 |} ].
Proof. reflexivity. Qed.

Example step_again_forwards_nothing :
  snd (HiveMindScheduler.steps [(0, None); (0, None); (0, None)]%Z
         (HiveMindScheduler.__init__ Samples.o_sample Samples.step_lr))
  = [ {| HiveMindScheduler.epoch_arg := None; HiveMindScheduler.counter_at_call := -1 |} ].
Proof. reflexivity. Qed.

Section Evaluation.
Import HivemindStrategy Samples.

(** [test_env_variables_parsed]. *)
Example env_variables_parsed :
  exists s evs,
    __init__ {| platform_system := "Linux";
                environ := {[ "HIVEMIND_MEMORY_SHARING_STRATEGY" := "file_descriptor";
                              "PL_INITIAL_PEERS" := "TEST_PEERS" ]};
                visible_maddrs := [] |}
             default_args = (Ok s, evs)
    /\ _initial_peers s = Some (PeerList ["TEST_PEERS"]).
Proof. eexists _, _. split; [reflexivity|]. vm_compute. reflexivity. Qed.

(** [test_maddrs], first case. *)
Example maddrs_default :
  exists s evs,
    __init__ linux default_args = (Ok s, evs)
    /\ dht_host_maddrs (dht s) = ["/ip4/0.0.0.0/tcp/0"; "/ip4/0.0.0.0/udp/0/quic"].
Proof. eexists _, _. split; reflexivity. Qed.

Example not_on_linux :
  __init__ {| platform_system := "Darwin"; environ := ∅; visible_maddrs := [] |} default_args
  = (Raise (MisconfigurationException not_linux_message), []).
Proof. reflexivity. Qed.

(** A string passed as [initial_peers] is split like the variable. *)
Example explicit_string_is_split :
  _parse_env_initial_peers ∅ (Some (PeerStr "peerA,peerB"))
  = Some (PeerList ["peerA"; "peerB"]).
Proof. reflexivity. Qed.

(** [test_reuse_grad_buffers_warning]: the calls of a run of two batches
    with [reuse_grad_buffers] and an overridden hook, then of teardown. *)
Example reuse_grad_buffers_run :
  exists s evs opt,
    __init__ linux (with_flags false None false None true) = (Ok s, evs)
    /\ let trained := run (train_batches size_of [4%nat; 4%nat] 0)
                          (connect [sgd] [exponential_lr] (Some user_module) s) in
       res trained = Ok tt
       /\ emitted trained = [Optimizer_new opt; Load_state_from_peers; Warn zero_grad_warning]
       /\ lightning_module (final trained) = Some {| optimizer_zero_grad := None |}
       /\ emitted (run teardown (final trained))
          = [Optimizer_shutdown opt; Log_info "Shutting down hivemind DHT.";
             DHT_shutdown (dht s); Super_teardown]
       /\ lightning_module (final (run teardown (final trained))) = Some user_module.
Proof.
  eexists _, _, _. split; [reflexivity|]. cbn zeta.
  split; [vm_compute; reflexivity|].
  split; [reflexivity|].
  split; [vm_compute; reflexivity|].
  split; vm_compute; reflexivity.
Qed.

(** [test_warn_if_argument_passed], second case. *)
Example delay_state_averaging_warns :
  exists s evs opt,
    __init__ linux (with_flags true None false None false) = (Ok s, evs)
    /\ emitted (run (train_batches size_of [4%nat; 4%nat] 0)
                    (connect [sgd] [] (Some user_module) s))
       = [Warn scheduler_fn_warning; Optimizer_new opt; Load_state_from_peers].
Proof. eexists _, _, _. split; reflexivity. Qed.

End Evaluation.

(** * Facts about the scheduler shim *)

Module ShimFacts.
Import HiveMindScheduler.
Local Open Scope Z_scope.

(** One call of [step] brings the counter up to [local_epoch], when it
    was behind, and forwards one call for each unit in between. *)
Lemma step_spec {S} (local_epoch : Z) (epoch : option Z) (self : t S) :
  step local_epoch epoch self =
    (set_current_step (Z.max (current_step self) local_epoch) self,
     (fun c => {| epoch_arg := epoch; counter_at_call := c |})
       <$> seqZ (current_step self) (local_epoch - current_step self)).
Proof.
  funelim (step local_epoch epoch self).
  - rewrite H. cbn. unfold set_current_step. cbn. f_equal.
    + f_equal. lia.
    + rewrite (seqZ_cons (current_step self)) by lia. cbn.
      do 3 f_equal; lia.
  - rewrite seqZ_nil by lia. cbn. f_equal.
    destruct self; unfold set_current_step; cbn in *. f_equal. lia.
Qed.

Lemma step_counter {S} e ep (self : t S) :
  current_step (fst (step e ep self)) = Z.max (current_step self) e.
Proof. rewrite step_spec. reflexivity. Qed.

Lemma step_global_steps {S} e ep (self : t S) :
  global_step_of <$> snd (step e ep self)
  = seqZ (current_step self + 1) (Z.max (current_step self) e - current_step self).
Proof.
  rewrite step_spec. cbn. rewrite <- list_fmap_compose.
  destruct (Z.le_gt_cases e (current_step self)).
  - rewrite !seqZ_nil by lia. reflexivity.
  - replace (Z.max (current_step self) e) with e by lia.
    replace (current_step self + 1) with (1 + current_step self) by lia.
    rewrite <- fmap_add_seqZ.
    apply list_fmap_ext. intros. unfold global_step_of. cbn. lia.
Qed.

Lemma steps_app {S} (a b : list (Z * option Z)) (self : t S) :
  steps (a ++ b) self =
    (fst (steps b (fst (steps a self))),
     snd (steps a self) ++ snd (steps b (fst (steps a self)))).
Proof.
  revert self. induction a as [|[e ep] a IH]; intros self; cbn.
  - destruct (steps b self); reflexivity.
  - destruct (step e ep self) as [s1 f1]. rewrite IH.
    destruct (steps a s1) as [s2 f2]. cbn.
    destruct (steps b s2) as [s3 f3]. cbn. rewrite app_assoc. reflexivity.
Qed.

(** The counter never goes back, whatever is observed. *)
Lemma steps_counter_mono {S} (calls : list (Z * option Z)) (self : t S) :
  current_step self <= current_step (fst (steps calls self)).
Proof.
  revert self. induction calls as [|[e ep] calls IH]; intros self; cbn; [lia|].
  pose proof (step_counter e ep self) as Hc.
  destruct (step e ep self) as [s1 f1]. specialize (IH s1).
  destruct (steps calls s1) as [s2 f2]. cbn in *. lia.
Qed.

(** The forwarded calls are for the global steps after the initial
    counter up to the final one, each once, in order. *)
Lemma steps_global_steps {S} (calls : list (Z * option Z)) (self : t S) :
  global_step_of <$> snd (steps calls self)
  = seqZ (current_step self + 1)
         (current_step (fst (steps calls self)) - current_step self).
Proof.
  revert self. induction calls as [|[e ep] calls IH]; intros self; cbn.
  - rewrite seqZ_nil by lia. reflexivity.
  - pose proof (step_counter e ep self) as Hc.
    pose proof (step_global_steps e ep self) as Hg.
    destruct (step e ep self) as [s1 f1]. specialize (IH s1).
    pose proof (steps_counter_mono calls s1) as Hm.
    destruct (steps calls s1) as [s2 f2]. cbn in *.
    rewrite fmap_app, Hg, IH, <- Hc.
    replace (current_step s2 - current_step self)
      with ((current_step s1 - current_step self) + (current_step s2 - current_step s1))
      by lia.
    rewrite seqZ_app by lia. do 2 f_equal. lia.
Qed.

(** While the observed global step only advances, the counter equals
    the last one observed. *)
Lemma steps_counter_last {S} (calls : list (Z * option Z)) (self : t S) (low : Z) :
  advancing low calls -> current_step self <= low -> calls <> [] ->
  current_step (fst (steps calls self)) = last_observed calls.
Proof.
  revert self low. induction calls as [|[e ep] calls IH]; intros self low Hadv Hlow Hne;
    [congruence|].
  cbn in Hadv. destruct Hadv as [Hle Hadv]. cbn.
  pose proof (step_counter e ep self) as Hc.
  destruct (step e ep self) as [s1 f1]. cbn in Hc.
  destruct calls as [|c calls].
  - cbn. unfold last_observed. cbn. lia.
  - specialize (IH s1 e Hadv). 
    destruct (steps (c :: calls) s1) as [s2 f2] eqn:E. cbn in *.
    rewrite IH by (try lia; congruence).
    unfold last_observed. cbn. destruct c. reflexivity.
Qed.

End ShimFacts.

(** * Facts about the strategy *)

Module StrategyFacts.
Import HivemindStrategy.

Lemma count_warn_app msg a b :
  count_warn msg (a ++ b) = count_warn msg a + count_warn msg b.
Proof. unfold count_warn. rewrite List.filter_app, length_app. reflexivity. Qed.

Ltac unfold_m :=
  unfold run, _initialize_hivemind, _wrap_schedulers, _disable_zero_grad, teardown,
    on_train_batch_start, reduce, all_gather, barrier, broadcast,
    bind, get, modify, emit, raise, ret, when in *.

Lemma init_ok host a s evs :
  __init__ host a = (Ok s, evs) ->
  s = {| _initial_peers := _parse_env_initial_peers (environ host) (initial_peers a);
         _target_batch_size := target_batch_size a;
         _batch_size := batch_size a;
         _scheduler_fn := scheduler_fn a;
         _require_scheduler_fn :=
           py_or (py_or (delay_optimizer_step a) (Some (delay_state_averaging a)))
                 (offload_optimizer a);
         _opt := None;
         _optimizer_zero_grad_original := None;
         _run_id := run_id a;
         _reuse_grad_buffers := reuse_grad_buffers a;
         _optimizer_kwargs := make_optimizer_kwargs a;
         dht := make_dht a;
         _hivemind_initialized := false;
         optimizers := [];
         lr_scheduler_configs := [];
         lightning_module := None |}
  /\ evs = [Super_init; DHT_new (make_dht a)]
           ++ match initial_peers a with
              | None => [Log_info (connect_message
                           (map maddr_str
                              (filter (fun m => is_loopback m = false) (visible_maddrs host))))]
              | Some _ => []
              end.
Proof.
  unfold __init__. destruct (negb _); [discriminate|].
  intros [= <- <-]. split; reflexivity.
Qed.

(** [wrap_each] raises exactly when some configuration holds a
    [ReduceLROnPlateau]. *)
Lemma wrap_each_raises opt configs :
  Exists (fun c => is_ReduceLROnPlateau (scheduler c) = true) configs ->
  snd (wrap_each opt configs) = Some (ValueError plateau_message).
Proof.
  induction 1 as [c l H | c l H IH]; cbn.
  - rewrite H. reflexivity.
  - destruct (is_ReduceLROnPlateau (scheduler c)); [reflexivity|].
    destruct (wrap_each opt l); cbn in *. assumption.
Qed.

(** A configuration holding a [ReduceLROnPlateau] is left as it was. *)
Lemma wrap_each_keeps opt configs c :
  c ∈ configs -> is_ReduceLROnPlateau (scheduler c) = true ->
  c ∈ fst (wrap_each opt configs).
Proof.
  intros Hin Hc. induction configs as [|c' l IH]; cbn; [exact Hin|].
  destruct (is_ReduceLROnPlateau (scheduler c')) eqn:E; [exact Hin|].
  apply elem_of_cons in Hin as [-> | Hin]; [congruence|].
  specialize (IH Hin). destruct (wrap_each opt l). cbn in *.
  apply elem_of_cons. right. exact IH.
Qed.

(** One-time construction with one optimizer registered: the warning
    (when due) comes first, the optimizer is constructed next with the
    stored keyword arguments, and the warning is not repeated. *)
Lemma initialize_one (self : t) (o : optimizer_obj) :
  optimizers self = [o] ->
  repeats_explicit (_optimizer_kwargs self) = false ->
  exists opt tail,
    emitted (run _initialize_hivemind self) =
      (if truthy (_require_scheduler_fn self) && bool_decide (_scheduler_fn self = None)
       then [Warn scheduler_fn_warning] else [])
      ++ Optimizer_new opt :: tail
    /\ o_kwargs opt = _optimizer_kwargs self
    /\ count_warn scheduler_fn_warning tail = 0
    /\ _hivemind_initialized (final (run _initialize_hivemind self))
       = _hivemind_initialized self.
Proof.
  destruct self as [ip tbs bs fn req op zg rid reuse kw d hi os cfgs lm].
  cbn. intros -> Hkw. unfold_m. cbn. rewrite Hkw.
  destruct fn as [f|], (truthy req); cbn.
  all: try (destruct (wrap_each _ cfgs) as [cfgs' [e|]]; cbn).
  all: destruct reuse; cbn.
  all: try (destruct lm as [[[[|name]|]]|]; cbn).
  all: eexists _, _; repeat split; reflexivity.
Qed.

(** With one optimizer registered and a keyword given twice, the call of
    [hivemind.Optimizer] raises: nothing is constructed or changed, and
    the warning, when due, has been emitted. *)
Lemma initialize_repeats (self : t) (o : optimizer_obj) :
  optimizers self = [o] ->
  repeats_explicit (_optimizer_kwargs self) = true ->
  run _initialize_hivemind self
  = {| res := Raise TypeError;
       final := self;
       emitted := if truthy (_require_scheduler_fn self)
                     && bool_decide (_scheduler_fn self = None)
                  then [Warn scheduler_fn_warning] else [] |}.
Proof.
  destruct self as [ip tbs bs fn req op zg rid reuse kw d hi os cfgs lm].
  cbn. intros -> Hkw. unfold_m. cbn. rewrite Hkw.
  destruct fn as [f|], (truthy req); reflexivity.
Qed.

(** The keywords [__init__] names are none of the explicit ones of the
    call, so only the caller's own keywords can repeat one. *)
Lemma repeats_explicit_make (a : InitArgs) :
  repeats_explicit (make_optimizer_kwargs a) = repeats_explicit (optimizer_kwargs a).
Proof.
  unfold repeats_explicit, explicit_kwargs, make_optimizer_kwargs. cbn [existsb].
  repeat (rewrite lookup_insert_ne by discriminate). reflexivity.
Qed.

Lemma truthy_py_or a b : truthy (py_or a b) = truthy a || truthy b.
Proof. unfold py_or. destruct (truthy a) eqn:E; [exact E|reflexivity]. Qed.

Section HookFacts.
Context {Batch : Type} (extract_batch_size : Batch -> result Z).

(** Once [_hivemind_initialized] is set the hook does nothing. *)
Lemma hook_initialized (self : t) batch i d :
  _hivemind_initialized self = true ->
  run (on_train_batch_start extract_batch_size batch i d) self
  = {| res := Ok tt; final := self; emitted := [] |}.
Proof.
  intros H. unfold run, on_train_batch_start, bind, get. cbn. rewrite H. reflexivity.
Qed.

Lemma train_initialized (self : t) batches i :
  _hivemind_initialized self = true ->
  run (train_batches extract_batch_size batches i) self
  = {| res := Ok tt; final := self; emitted := [] |}.
Proof.
  revert i. induction batches as [|b bs IH]; intros i H; [reflexivity|].
  cbn [train_batches]. unfold run, bind in *.
  pose proof (hook_initialized self b i 0 H) as Hh. unfold run in Hh.
  rewrite Hh, IH by assumption. reflexivity.
Qed.

(** The first hook, when the batch size is known or can be inferred:
    one-time construction, after at most a log line. *)
Lemma hook_first (self : t) batch i d :
  _hivemind_initialized self = false ->
  (_batch_size self = None -> exists n, extract_batch_size batch = Ok n) ->
  exists inferred pre,
    let o := run _initialize_hivemind (before_construction self inferred) in
    run (on_train_batch_start extract_batch_size batch i d) self
    = {| res := res o; final := final o; emitted := pre ++ emitted o |}
    /\ count_warn scheduler_fn_warning pre = 0.
Proof.
  intros Hi Hb. unfold run, on_train_batch_start, bind, get, modify.
  rewrite Hi. cbn -[_initialize_hivemind].
  destruct (_batch_size self) as [n|] eqn:E.
  - exists None, []. cbn -[_initialize_hivemind]. split; [|reflexivity].
    destruct (_initialize_hivemind _) as [[[]|e] f ev]; reflexivity.
  - destruct (Hb eq_refl) as [n Hn]. rewrite Hn. cbn -[_initialize_hivemind].
    exists (Some n),
      [Log_info ("Found per machine batch size automatically from the batch: "
                 +:+ pretty n)].
    cbn -[_initialize_hivemind]. split; [|reflexivity].
    destruct (_initialize_hivemind _) as [[[]|e] f ev]; reflexivity.
Qed.

(** A run of hooks is its first hook: later ones find the flag set,
    and a raising one ends the run. *)
Lemma train_first (self : t) batch rest i (o : outcome unit) :
  run (on_train_batch_start extract_batch_size batch i 0) self = o ->
  (res o = Ok tt -> _hivemind_initialized (final o) = true) ->
  run (train_batches extract_batch_size (batch :: rest) i) self = o.
Proof.
  intros Hh Hi. cbn [train_batches]. unfold run, bind in *. rewrite Hh.
  destruct o as [[[]|e] f ev]; cbn in *; [|reflexivity].
  pose proof (train_initialized f rest (i + 1) (Hi eq_refl)) as Ht.
  unfold run in Ht. rewrite Ht, app_nil_r. reflexivity.
Qed.
End HookFacts.
End StrategyFacts.

(** * Claims *)

Section Claims.
Import HivemindStrategy StrategyFacts Samples.

(** ** C1: resolution of the initial peers *)

(** Counterexample to C1 as stated: with [PL_INITIAL_PEERS] set to
    [peerA,peerB] and an explicit list passed to the constructor, the
    strategy keeps the list of the environment variable, not the explicit
    one the specified order gives. *)
Lemma env_peers_used_despite_explicit_list :
  exists s evs,
    __init__ linux_with_peers (with_initial_peers (Some explicit_peers) default_args)
      = (Ok s, evs)
    /\ _initial_peers s = Some (PeerList ["peerA"; "peerB"])
    /\ resolution_as_specified (environ linux_with_peers) (Some explicit_peers)
       = Some explicit_peers
    /\ _initial_peers s
       <> resolution_as_specified (environ linux_with_peers) (Some explicit_peers).
Proof.
  eexists _, _. split; [reflexivity|]. cbn [_initial_peers].
  assert (E : _parse_env_initial_peers (environ linux_with_peers) (Some explicit_peers)
              = Some (PeerList ["peerA"; "peerB"])) by (vm_compute; reflexivity).
  cbn [initial_peers with_initial_peers]. rewrite E.
  split; [reflexivity | split; [reflexivity | discriminate]].
Qed.

(** C1, amended: the environment variable comes first.  When
    [PL_INITIAL_PEERS] is set, the internal peer list is its value split
    on commas, whatever was passed to the constructor; the constructor
    argument (split on commas when it is a string) is used only when the
    variable is not set. *)
Theorem initial_peers_env_first (host : Host) (a : InitArgs) (s : t) (evs : list event) :
  __init__ host a = (Ok s, evs) ->
  _initial_peers s =
    match environ host !! INITIAL_PEERS_ENV with
    | Some v => Some (PeerList (split ","%char v))
    | None =>
        match initial_peers a with
        | Some (PeerStr p) => Some (PeerList (split ","%char p))
        | explicit => explicit
        end
    end.
Proof.
  intros H. apply init_ok in H as [-> _]. cbn [_initial_peers].
  unfold _parse_env_initial_peers.
  destruct (environ host !! INITIAL_PEERS_ENV); [reflexivity|].
  destruct (initial_peers a) as [[p|l]|]; reflexivity.
Qed.

Lemma initial_peers_env_first_witness :
  exists s evs,
    __init__ linux_with_peers (with_initial_peers (Some explicit_peers) default_args)
      = (Ok s, evs)
    /\ _initial_peers s =
         match environ linux_with_peers !! INITIAL_PEERS_ENV with
         | Some v => Some (PeerList (split ","%char v))
         | None => Some explicit_peers
         end.
Proof.
  eexists _, _. split; [reflexivity|].
  apply (initial_peers_env_first linux_with_peers
           (with_initial_peers (Some explicit_peers) default_args) _ _ eq_refl).
Defined.

(** ** C3: the warning about a missing scheduler factory *)

(** Counterexample to C3 as stated: with [delay_grad_averaging] alone
    set and no [scheduler_fn], one-time construction reaches the call of
    [hivemind.Optimizer] without having emitted any warning, and emits
    none at all. *)
Lemma delay_grad_averaging_alone_does_not_warn :
  exists s evs,
    __init__ linux (with_flags false None true None false) = (Ok s, evs)
    /\ delay_grad_averaging (with_flags false None true None false) = true
    /\ scheduler_fn (with_flags false None true None false) = None
    /\ let out := run _initialize_hivemind (connect [sgd] [exponential_lr] (Some user_module) s) in
       (exists opt after, emitted out = Optimizer_new opt :: after)
       /\ count_warn scheduler_fn_warning (emitted out) = 0
       /\ forall msg, Warn msg ∉ emitted out.
Proof.
  eexists _, _. split; [reflexivity|].
  split; [reflexivity|]. split; [reflexivity|]. cbn zeta.
  split; [eexists _, _; vm_compute; reflexivity|]. split; [vm_compute; reflexivity|].
  intros msg H. vm_compute in H.
  apply elem_of_cons in H as [H|H]; [discriminate|].
  apply elem_of_cons in H as [H|H]; [discriminate|].
  apply elem_of_nil in H. exact H.
Qed.

(** C3, amended: the flags that make a scheduler factory required are
    [delay_optimizer_step], [delay_state_averaging] and
    [offload_optimizer] ([delay_grad_averaging] is not among them).  If
    one of the three is set, no [scheduler_fn] was supplied, one
    optimizer is registered and the batch size is known or can be
    inferred, then over a whole run of per-batch hooks the warning is
    emitted exactly once, and it is not fatal: it raises nothing, and
    construction goes on to the call of [hivemind.Optimizer], which is
    made right after the warning; if a keyword of the caller repeats an
    explicit keyword of that call, the call raises [TypeError] there, the
    warning being the last thing emitted. *)
Theorem scheduler_fn_warning_once {Batch : Type} (extract_batch_size : Batch -> result Z)
    (host : Host) (a : InitArgs) (s : t) (evs : list event)
    (o : TorchOptimizer) (configs : list LRSchedulerConfig)
    (module : option LightningModule) (batch : Batch) (rest : list Batch) :
  __init__ host a = (Ok s, evs) ->
  truthy (delay_optimizer_step a) = true \/ delay_state_averaging a = true
    \/ truthy (offload_optimizer a) = true ->
  scheduler_fn a = None ->
  (batch_size a = None -> exists n, extract_batch_size batch = Ok n) ->
  let out := run (train_batches extract_batch_size (batch :: rest) 0)
                 (connect [o] configs module s) in
  count_warn scheduler_fn_warning (emitted out) = 1
  /\ (repeats_explicit (optimizer_kwargs a) = false ->
      exists before opt after,
        emitted out = before ++ Warn scheduler_fn_warning :: Optimizer_new opt :: after)
  /\ (repeats_explicit (optimizer_kwargs a) = true ->
      res out = Raise TypeError
      /\ exists before, emitted out = before ++ [Warn scheduler_fn_warning]).
Proof.
  intros Hinit Hflag Hfn Hbs out.
  apply init_ok in Hinit as [-> _].
  set (self := connect _ _ _ _) in out.
  assert (Hreq : truthy (_require_scheduler_fn self) = true).
  { cbn. rewrite !truthy_py_or. cbn.
    destruct Hflag as [-> | [-> | ->]]; rewrite ?orb_true_r; reflexivity. }
  destruct (hook_first extract_batch_size self batch 0 0 eq_refl Hbs)
    as (inferred & pre & Hhook & Hpre).
  set (self' := before_construction self inferred) in *.
  assert (Hopt : optimizers self' = [TorchOpt o]) by (destruct inferred; reflexivity).
  assert (Hreq' : truthy (_require_scheduler_fn self') = true)
    by (destruct inferred; exact Hreq).
  assert (Hfn' : _scheduler_fn self' = None) by (destruct inferred; exact Hfn).
  assert (Hkw : repeats_explicit (_optimizer_kwargs self')
                = repeats_explicit (optimizer_kwargs a)).
  { rewrite <- repeats_explicit_make. destruct inferred; reflexivity. }
  assert (Hout : out = {| res := res (run _initialize_hivemind self');
                          final := final (run _initialize_hivemind self');
                          emitted := pre ++ emitted (run _initialize_hivemind self') |}).
  { apply train_first; [exact Hhook|]. cbn [final]. intros Hres.
    destruct (repeats_explicit (optimizer_kwargs a)) eqn:Hrep.
    - rewrite (initialize_repeats self' (TorchOpt o) Hopt Hkw) in Hres. discriminate.
    - destruct (initialize_one self' (TorchOpt o) Hopt Hkw) as (_ & _ & _ & _ & _ & Hflag').
      rewrite Hflag'. destruct inferred; reflexivity. }
  rewrite Hout. cbn [emitted res].
  destruct (repeats_explicit (optimizer_kwargs a)) eqn:Hrep.
  - rewrite (initialize_repeats self' (TorchOpt o) Hopt Hkw).
    rewrite Hreq', Hfn'. cbn [emitted res andb bool_decide].
    change (if bool_decide (@None SchedulerFn = None) then [Warn scheduler_fn_warning] else [])
      with [Warn scheduler_fn_warning].
    split; [|split; [discriminate|]].
    + rewrite count_warn_app, Hpre. reflexivity.
    + intros _. split; [reflexivity|]. exists pre. reflexivity.
  - destruct (initialize_one self' (TorchOpt o) Hopt Hkw)
      as (opt & tail & Hem & _ & Htail & _).
    rewrite Hreq', Hfn' in Hem. cbn -[run _initialize_hivemind] in Hem.
    rewrite Hem. split; [|split; [|discriminate]].
    + rewrite count_warn_app, Hpre. unfold count_warn in *.
      cbn [List.filter is_warn]. rewrite String.eqb_refl. cbn [length].
      rewrite Htail. reflexivity.
    + intros _. exists pre, opt, tail. reflexivity.
Qed.

Lemma scheduler_fn_warning_once_witness :
  exists s evs,
    __init__ linux (with_flags true None false None true) = (Ok s, evs)
    /\ let out := run (train_batches size_of [8%nat; 8%nat; 8%nat] 0)
                      (connect [sgd] [exponential_lr] (Some user_module) s) in
       count_warn scheduler_fn_warning (emitted out) = 1
       /\ exists before opt after,
            emitted out = before ++ Warn scheduler_fn_warning :: Optimizer_new opt :: after.
Proof.
  eexists _, _. split; [reflexivity|]. cbn zeta.
  match goal with
  | |- context [connect _ _ _ ?s] =>
      destruct (scheduler_fn_warning_once size_of linux (with_flags true None false None true)
                  s _ sgd [exponential_lr] (Some user_module) 8%nat [8%nat; 8%nat] eq_refl)
        as (H1 & H2 & _)
  end.
  - right; left; reflexivity.
  - reflexivity.
  - discriminate.
  - split; [exact H1|]. apply H2. vm_compute. reflexivity.
Defined.

(** ** C4: more than one optimizer *)

(** C4: with more than one optimizer registered, one-time construction
    raises the "only one optimizer" configuration error, having changed
    nothing and called nothing: the optimizer list is not replaced and the
    external optimizer is not constructed. *)
Theorem more_than_one_optimizer_fails (self : t) :
  1 < length (optimizers self) ->
  run _initialize_hivemind self
  = {| res := Raise (MisconfigurationException one_optimizer_message);
       final := self;
       emitted := [] |}.
Proof.
  intros H. apply Nat.ltb_lt in H.
  unfold run, _initialize_hivemind, bind, get, raise. cbn -[Nat.ltb].
  rewrite H. reflexivity.
Qed.

Lemma more_than_one_optimizer_fails_witness :
  exists s evs,
    __init__ linux default_args = (Ok s, evs)
    /\ 1 < length (optimizers (connect [sgd; sgd] [exponential_lr] None s))
    /\ run _initialize_hivemind (connect [sgd; sgd] [exponential_lr] None s)
       = {| res := Raise (MisconfigurationException one_optimizer_message);
            final := connect [sgd; sgd] [exponential_lr] None s;
            emitted := [] |}.
Proof.
  eexists _, _. split; [reflexivity|]. split; [cbn; lia|].
  apply more_than_one_optimizer_fails. cbn. lia.
Defined.

(** ** C5: batch size neither supplied nor inferable *)

(** C5: on the first per-batch hook, with no batch size supplied, a
    failure of Lightning's batch-size inference (it raises
    [MisconfigurationException] or [RecursionError]) becomes the
    configuration error that asks for the batch size.  Nothing has been
    called by then: the external optimizer is not constructed and
    [load_state_from_peers] is not attempted; only the initialisation
    flag has been set. *)
Theorem uninferable_batch_size_fails_first {Batch : Type}
    (extract_batch_size : Batch -> result Z) (self : t)
    (batch : Batch) (batch_idx dataloader_idx : Z) (e : exn) :
  _hivemind_initialized self = false ->
  _batch_size self = None ->
  extract_batch_size batch = Raise e ->
  (exists msg, e = MisconfigurationException msg \/ e = RecursionError msg) ->
  let out := run (on_train_batch_start extract_batch_size batch batch_idx dataloader_idx) self in
  out = {| res := Raise (MisconfigurationException batch_size_message);
           final := set__hivemind_initialized true self;
           emitted := [] |}
  /\ _opt (final out) = _opt self
  /\ optimizers (final out) = optimizers self
  /\ (forall opt, Optimizer_new opt ∉ emitted out)
  /\ Load_state_from_peers ∉ emitted out.
Proof.
  intros Hi Hb He (msg & Hmsg) out.
  assert (Hout : out = {| res := Raise (MisconfigurationException batch_size_message);
                          final := set__hivemind_initialized true self;
                          emitted := [] |}).
  { subst out. unfold_m. rewrite Hi, Hb, He. cbn.
    destruct Hmsg as [-> | ->]; reflexivity. }
  rewrite Hout. cbn. repeat split; try reflexivity; intros; apply not_elem_of_nil.
Qed.

Lemma uninferable_batch_size_fails_first_witness :
  exists s evs,
    __init__ linux default_args = (Ok s, evs)
    /\ let self := connect [sgd] [exponential_lr] (Some user_module) s in
       let out := run (on_train_batch_start no_size 0%nat 0 0) self in
       out = {| res := Raise (MisconfigurationException batch_size_message);
                final := set__hivemind_initialized true self;
                emitted := [] |}
       /\ _opt (final out) = _opt self
       /\ optimizers (final out) = optimizers self
       /\ (forall opt, Optimizer_new opt ∉ emitted out)
       /\ Load_state_from_peers ∉ emitted out.
Proof.
  eexists _, _. split; [reflexivity|].
  apply (uninferable_batch_size_fails_first no_size _ 0%nat 0 0
           (MisconfigurationException "We could not infer the batch_size from the batch.")).
  - reflexivity.
  - reflexivity.
  - reflexivity.
  - eexists. left. reflexivity.
Defined.

(** ** C6: collectives *)

(** C6: [reduce], [all_gather] and [broadcast] return their argument
    unchanged, and [barrier] returns; none of them changes the strategy or
    calls anything. *)
Theorem collectives_pass_through {T : Type} (x : T) (self : t)
    (args : list pyval) (kwargs : gmap string pyval)
    (group : option pyval) (sync_grads : bool) (src : Z) :
  run (reduce x args kwargs) self = {| res := Ok x; final := self; emitted := [] |}
  /\ run (all_gather x group sync_grads) self = {| res := Ok x; final := self; emitted := [] |}
  /\ run (broadcast x src) self = {| res := Ok x; final := self; emitted := [] |}
  /\ run (barrier args kwargs) self = {| res := Ok tt; final := self; emitted := [] |}.
Proof. repeat split. Qed.

(** ** C7: teardown *)

(** C7: teardown returns; its calls are the optimizer's shutdown, made
    exactly when an optimizer was constructed, and after it the peer
    handle's shutdown.  When one-time construction ran with gradient-buffer
    reuse (which saved the module's [optimizer_zero_grad] and disabled
    it), teardown leaves the module with the hook it had before
    construction. *)
Theorem teardown_restores_then_shuts_down (self : t) :
  let out := run teardown self in
  res out = Ok tt
  /\ emitted out =
       match _opt self with
       | Some opt => [Optimizer_shutdown opt]
       | None => []
       end
       ++ [Log_info "Shutting down hivemind DHT."; DHT_shutdown (dht self); Super_teardown]
  /\ (forall original m,
        _optimizer_zero_grad_original self = Some original ->
        lightning_module self = Some m ->
        lightning_module (final out) = Some {| optimizer_zero_grad := Some original |})
  /\ (forall start,
        _reuse_grad_buffers start = true ->
        res (run _initialize_hivemind start) = Ok tt ->
        self = final (run _initialize_hivemind start) ->
        lightning_module self = Some {| optimizer_zero_grad := None |}
        /\ lightning_module (final out) = lightning_module start
        /\ exists opt,
             _opt self = Some opt
             /\ emitted out = [Optimizer_shutdown opt;
                               Log_info "Shutting down hivemind DHT.";
                               DHT_shutdown (dht start);
                               Super_teardown]).
Proof.
  cbn zeta. split; [|split; [|split]].
  - destruct self as [ip tbs bs fn req [op|] [zg|] rid reuse kw d hi os cfgs [lm|]];
      reflexivity.
  - destruct self as [ip tbs bs fn req [op|] [zg|] rid reuse kw d hi os cfgs [lm|]];
      reflexivity.
  - intros original m Ho Hm.
    destruct self as [ip tbs bs fn req [op|] zg rid reuse kw d hi os cfgs lm];
      cbn in Ho, Hm; subst; reflexivity.
  - intros start Hreuse Hres ->. revert Hres.
    destruct start as [ip tbs bs fn req op zg rid reuse kw d hi os cfgs lm].
    cbn in Hreuse. subst reuse. unfold_m. cbn.
    destruct os as [|o [|o' os]]; cbn; try discriminate.
    destruct fn as [f|], (truthy req), (repeats_explicit kw); cbn.
    all: try discriminate.
    all: try (destruct (wrap_each _ cfgs) as [cfgs' [e|]]; cbn).
    all: try discriminate.
    all: destruct lm as [[[[|name]|]]|]; cbn.
    all: try discriminate.
    all: intros _; repeat split; eexists; split; reflexivity.
Qed.

Lemma teardown_restores_then_shuts_down_witness :
  exists s evs,
    __init__ linux (with_flags false None false None true) = (Ok s, evs)
    /\ let start := connect [sgd] [exponential_lr] (Some user_module) s in
       let self := final (run _initialize_hivemind start) in
       lightning_module self = Some {| optimizer_zero_grad := None |}
       /\ lightning_module (final (run teardown self)) = Some user_module
       /\ exists opt,
            _opt self = Some opt
            /\ emitted (run teardown self) = [Optimizer_shutdown opt;
                                              Log_info "Shutting down hivemind DHT.";
                                              DHT_shutdown (dht start);
                                              Super_teardown].
Proof.
  eexists _, _. split; [reflexivity|]. cbn zeta.
  match goal with
  | |- context [run teardown (final (run _initialize_hivemind ?start))] =>
      destruct (teardown_restores_then_shuts_down
                  (final (run _initialize_hivemind start))) as (_ & _ & _ & H);
      apply (H start); reflexivity
  end.
Defined.

(** ** C8: what the peer handle is constructed with *)

(** C8: a constructor that returns has made one call of [hivemind.DHT],
    with the [initial_peers] argument as it was passed, whatever the
    environment holds (the list read from the environment only reaches
    [_initial_peers]); and it has logged the message with the visible
    addresses exactly when that argument was [None]. *)
Theorem dht_gets_constructor_argument (host : Host) (a : InitArgs) (s : t)
    (evs : list event) :
  __init__ host a = (Ok s, evs) ->
  dht_initial_peers (dht s) = initial_peers a
  /\ (forall d, DHT_new d ∈ evs <-> d = dht s)
  /\ ((exists msg, Log_info msg ∈ evs) <-> initial_peers a = None)
  /\ (Log_info (connect_message
                  (maddr_str <$> filter (fun m => is_loopback m = false) (visible_maddrs host)))
        ∈ evs <-> initial_peers a = None)
  /\ _initial_peers s = _parse_env_initial_peers (environ host) (initial_peers a).
Proof.
  intros H. apply init_ok in H as [-> ->]. cbn [dht _initial_peers make_dht dht_initial_peers].
  split; [reflexivity|]. split; [|split; [|split; [|reflexivity]]].
  - intros d. destruct (initial_peers a); cbn; rewrite ?elem_of_cons, ?elem_of_nil;
      split; intros H; try (right; left; congruence).
    all: destruct H as [H|[H|H]]; try discriminate; try congruence.
    all: try (destruct H as [H|H]; [discriminate|contradiction]).
    all: try contradiction.
  - destruct (initial_peers a); cbn; split.
    + intros [msg H]. rewrite !elem_of_cons, elem_of_nil in H.
      destruct H as [H|[H|H]]; try discriminate; contradiction.
    + discriminate.
    + reflexivity.
    + intros _. eexists. rewrite !elem_of_cons. right; right; left. reflexivity.
  - destruct (initial_peers a); cbn; split.
    + intros H. rewrite !elem_of_cons, elem_of_nil in H.
      destruct H as [H|[H|H]]; try discriminate; contradiction.
    + discriminate.
    + reflexivity.
    + intros _. rewrite !elem_of_cons. right; right; left. reflexivity.
Qed.

Lemma dht_gets_constructor_argument_witness :
  exists s evs,
    __init__ linux_with_peers default_args = (Ok s, evs)
    /\ dht_initial_peers (dht s) = None
    /\ (forall d, DHT_new d ∈ evs <-> d = dht s)
    /\ ((exists msg, Log_info msg ∈ evs) <-> initial_peers default_args = None)
    /\ (Log_info (connect_message
                    (maddr_str <$> filter (fun m => is_loopback m = false)
                                     (visible_maddrs linux_with_peers)))
          ∈ evs <-> initial_peers default_args = None)
    /\ _initial_peers s
       = _parse_env_initial_peers (environ linux_with_peers) (initial_peers default_args).
Proof.
  eexists _, _. split; [reflexivity|].
  apply (dht_gets_constructor_argument linux_with_peers default_args _ _ eq_refl).
Defined.

(** ** C9: ReduceLROnPlateau *)

(** C9: with one optimizer registered, no [scheduler_fn], and the call
    of [hivemind.Optimizer] made (no keyword of the caller repeats an
    explicit keyword of that call) and returned, a registered
    [ReduceLROnPlateau] scheduler makes one-time construction raise the
    [ValueError]; that scheduler is left unwrapped, and the error comes
    before [load_state_from_peers] and before the optimizer list is
    replaced. *)
Theorem plateau_scheduler_rejected (self : t) (o : optimizer_obj)
    (config : LRSchedulerConfig) :
  optimizers self = [o] ->
  _scheduler_fn self = None ->
  repeats_explicit (_optimizer_kwargs self) = false ->
  config ∈ lr_scheduler_configs self ->
  is_ReduceLROnPlateau (scheduler config) = true ->
  let out := run _initialize_hivemind self in
  res out = Raise (ValueError plateau_message)
  /\ (config ∈ lr_scheduler_configs (final out))
  /\ (Load_state_from_peers ∉ emitted out)
  /\ optimizers (final out) = [o]
  /\ _opt (final out) = _opt self.
Proof.
  destruct self as [ip tbs bs fn req op zg rid reuse kw d hi os cfgs lm].
  cbn. intros -> -> Hkw Hin Hc. unfold_m. cbn. rewrite Hkw.
  assert (Hex : Exists (fun c => is_ReduceLROnPlateau (scheduler c) = true) cfgs).
  { apply Exists_exists. exists config. split; [exact Hin | exact Hc]. }
  destruct (truthy req); cbn.
  all: match goal with
       | |- context [wrap_each ?opt ?c] =>
           pose proof (wrap_each_raises opt c Hex) as Hw;
           pose proof (wrap_each_keeps opt c config Hin Hc) as Hk;
           destruct (wrap_each opt c) as [cfgs' e]; cbn in Hw, Hk; subst e; cbn
       end.
  all: repeat split; try assumption.
  all: intros H; repeat (apply elem_of_cons in H as [H|H]; [discriminate|]).
  all: apply elem_of_nil in H; exact H.
Qed.

Lemma plateau_scheduler_rejected_witness :
  exists s evs,
    __init__ linux (with_flags false None false None false) = (Ok s, evs)
    /\ let self := connect [sgd] [exponential_lr; plateau] (Some user_module) s in
       let out := run _initialize_hivemind self in
       res out = Raise (ValueError plateau_message)
       /\ (plateau ∈ lr_scheduler_configs (final out))
       /\ (Load_state_from_peers ∉ emitted out)
       /\ optimizers (final out) = [TorchOpt sgd]
       /\ _opt (final out) = _opt self.
Proof.
  eexists _, _. split; [reflexivity|].
  apply (plateau_scheduler_rejected _ (TorchOpt sgd) plateau).
  - reflexivity.
  - reflexivity.
  - vm_compute. reflexivity.
  - apply elem_of_cons. right. apply elem_of_cons. left. reflexivity.
  - reflexivity.
Defined.

(** ** C10: averager_opts *)

(** C10: the [averager_opts] stored by the constructor, and passed on to
    [hivemind.Optimizer] by one-time construction when it makes that call
    (no keyword of the caller repeats an explicit keyword of the call), is
    the caller's value whenever [averaging_timeout] is not [None] (so
    [None] stays [None] under the default timeout); the fallback with
    [request_timeout] 1.0 replaces it exactly when [averaging_timeout] is
    [None]. *)
Theorem averager_opts_keyed_on_timeout (host : Host) (a : InitArgs) (s : t)
    (evs : list event) (o : TorchOptimizer) (configs : list LRSchedulerConfig)
    (module : option LightningModule) :
  __init__ host a = (Ok s, evs) ->
  let forwarded :=
    match averaging_timeout a with
    | Some _ => of_opt_dict (averager_opts a)
    | None => PDict [("request_timeout", PFloat 1%Q)]
    end in
  _optimizer_kwargs s !! "averager_opts" = Some forwarded
  /\ (repeats_explicit (optimizer_kwargs a) = false ->
      exists opt,
        Optimizer_new opt ∈ emitted (run _initialize_hivemind (connect [o] configs module s))
        /\ o_kwargs opt !! "averager_opts" = Some forwarded)
  /\ (forall timeout, averaging_timeout a = Some timeout -> averager_opts a = None ->
      forwarded = PNone)
  /\ (forall timeout opts, averaging_timeout a = Some timeout -> averager_opts a = Some opts ->
      forwarded = PDict opts)
  /\ (averaging_timeout a = None -> forwarded = PDict [("request_timeout", PFloat 1%Q)]).
Proof.
  intros H forwarded. apply init_ok in H as [-> _].
  assert (Hk : make_optimizer_kwargs a !! "averager_opts" = Some forwarded).
  { unfold make_optimizer_kwargs.
    do 6 (rewrite lookup_insert_ne by discriminate).
    apply lookup_insert_eq. }
  split; [exact Hk|]. split; [|split; [|split]].
  - intros Hrep.
    match goal with
    | |- context [run _initialize_hivemind ?self] =>
        destruct (initialize_one self (TorchOpt o) eq_refl) as (opt & tail & Hem & Hkw & _)
    end.
    { cbn. rewrite repeats_explicit_make. exact Hrep. }
    exists opt. split.
    + rewrite Hem. apply elem_of_app. right. apply elem_of_cons. left. reflexivity.
    + rewrite Hkw. exact Hk.
  - intros timeout Ht Ho. subst forwarded. rewrite Ht, Ho. reflexivity.
  - intros timeout opts Ht Ho. subst forwarded. rewrite Ht, Ho. reflexivity.
  - intros Ht. subst forwarded. rewrite Ht. reflexivity.
Qed.

Lemma averager_opts_keyed_on_timeout_witness :
  exists s evs,
    __init__ linux default_args = (Ok s, evs)
    /\ averaging_timeout default_args = Some 30%Q
    /\ averager_opts default_args = None
    /\ _optimizer_kwargs s !! "averager_opts" = Some PNone
    /\ exists opt,
         Optimizer_new opt
           ∈ emitted (run _initialize_hivemind (connect [sgd] [] None s))
         /\ o_kwargs opt !! "averager_opts" = Some PNone.
Proof.
  eexists _, _. split; [reflexivity|]. split; [reflexivity|]. split; [reflexivity|].
  destruct (averager_opts_keyed_on_timeout linux default_args _ _ sgd [] None eq_refl)
    as (H1 & H2 & _).
  split; [exact H1 | apply H2; vm_compute; reflexivity].
Defined.

(** ** C2: the scheduler shim *)

Import HiveMindScheduler ShimFacts.
Local Open Scope Z_scope.

(** C2: over any sequence of calls of the shim's [step], each observing
    some value of the optimizer's global step: the counter starts at -1
    and never goes back; the wrapped scheduler has received one forwarded
    [step] for each global step from 0 up to the counter, in order and
    none twice; a call forwards exactly as many steps as the observed
    global step is ahead of the counter; and while the observed global
    step advances from call to call, the counter equals the one observed
    last (so it never exceeds it, and a call forwards one step per unit of
    advancement since the call before, however many calls there were). *)
Theorem scheduler_steps_once_per_global_step {S : Type} (opt : HivemindOptimizer)
    (sched : S) (calls : list (Z * option Z)) :
  let init := __init__ opt sched in
  current_step init = -1
  /\ forall before after, calls = before ++ after ->
       let '(self, fw) := steps before init in
       current_step self <= current_step (fst (steps calls init))
       /\ global_step_of <$> fw = seqZ 0 (current_step self + 1)
       /\ NoDup (global_step_of <$> fw)
       /\ length fw = Z.to_nat (current_step self + 1)
       /\ (advancing 0 before -> current_step self = last_observed before)
       /\ match after with
          | [] => True
          | (local_epoch, epoch) :: _ =>
              length (snd (step local_epoch epoch self))
              = Z.to_nat (local_epoch - current_step self)
          end.
Proof.
  intros init. split; [reflexivity|].
  intros before after ->.
  pose proof (steps_global_steps before init) as Hg.
  pose proof (steps_app before after init) as Happ.
  pose proof (steps_counter_mono after (fst (steps before init))) as Hm.
  assert (Hlast : advancing 0 before ->
                  current_step (fst (steps before init)) = last_observed before).
  { intros Hadv. destruct before as [|c before]; [reflexivity|].
    apply (steps_counter_last _ _ 0); [exact Hadv|cbn; lia|congruence]. }
  destruct (steps before init) as [self fw]. cbn in *.
  rewrite Happ. cbn.
  replace (current_step self - -1) with (current_step self + 1) in Hg by lia.
  repeat split; auto.
  - rewrite Hg. apply NoDup_seqZ.
  - rewrite <- (length_fmap global_step_of), Hg, length_seqZ. reflexivity.
  - destruct after as [|[e ep] after]; [exact I|].
    rewrite step_spec. cbn. rewrite length_fmap, length_seqZ. reflexivity.
Qed.

Lemma scheduler_steps_once_per_global_step_witness :
  advancing 0 [(0, None); (0, None); (2, Some 7); (2, None)]
  /\ let '(self, fw) :=
       steps [(0, None); (0, None); (2, Some 7); (2, None)] (__init__ o_sample step_lr) in
     current_step self = 2 /\ global_step_of <$> fw = [0; 1; 2].
Proof.
  split; [cbn; lia|].
  destruct (scheduler_steps_once_per_global_step o_sample step_lr
              [(0, None); (0, None); (2, Some 7); (2, None)]) as [_ H].
  specialize (H [(0, None); (0, None); (2, Some 7); (2, None)] [] eq_refl).
  revert H.
  destruct (steps _ _) as [self fw].
  intros (_ & H2 & _ & _ & H1 & _). rewrite H2, H1 by (cbn; lia). split; reflexivity.
Defined.
End Claims.

(** * Further facts *)

Module StringFacts.

Lemma split_nonempty sep s : split sep s <> [].
Proof.
  destruct s as [|c rest]; cbn; [discriminate|].
  destruct (Ascii.eqb c sep); [discriminate|].
  destruct (split sep rest); discriminate.
Qed.

(** A string without the separator is one field. *)
Lemma split_no_sep sep s : has_char sep s = false -> split sep s = [s].
Proof.
  induction s as [|c rest IH]; cbn; [reflexivity|].
  intros H. apply orb_false_iff in H as [Hc Hr].
  rewrite Hc, (IH Hr). reflexivity.
Qed.

(** A field, the separator, and the rest. *)
Lemma split_field sep field rest :
  has_char sep field = false ->
  split sep (field +:+ String sep rest) = field :: split sep rest.
Proof.
  induction field as [|c field IH]; intros H.
  - change (split sep (String sep rest) = EmptyString :: split sep rest).
    cbn [split]. rewrite Ascii.eqb_refl. reflexivity.
  - cbn [has_char] in H. apply orb_false_iff in H as [Hc Hr].
    change (split sep (String c (field +:+ String sep rest))
            = String c field :: split sep rest).
    cbn [split]. rewrite Hc, (IH Hr). reflexivity.
Qed.

(** Joining fields that hold no comma and splitting again gives the
    fields back; no fields at all come back as one empty field. *)
Lemma split_join (l : list string) :
  Forall (fun a => has_char ","%char a = false) l ->
  split ","%char (join "," l) = match l with [] => [EmptyString] | _ => l end.
Proof.
  unfold join. induction 1 as [|a l Ha Hl IH]; [reflexivity|].
  destruct l as [|b l].
  - cbn. apply split_no_sep. exact Ha.
  - change (String.concat "," (a :: b :: l))
      with (a +:+ String ","%char (String.concat "," (b :: l))).
    rewrite split_field by exact Ha. rewrite IH. reflexivity.
Qed.

End StringFacts.


Module ConstructionFacts.
Import HivemindStrategy StrategyFacts.

Lemma count_events_app p a b :
  count_events p (a ++ b) = count_events p a + count_events p b.
Proof. unfold count_events. rewrite List.filter_app, length_app. reflexivity. Qed.

(** Without a [ReduceLROnPlateau], every configuration is wrapped. *)
Lemma wrap_each_wrapped opt configs :
  Forall (fun c => is_ReduceLROnPlateau (scheduler c) = false) configs ->
  wrap_each opt configs = (wrap opt <$> configs, None).
Proof.
  induction 1 as [|c l H _ IH]; cbn; [reflexivity|].
  rewrite H, IH. reflexivity.
Qed.

(** The loop stops at the first [ReduceLROnPlateau]: what comes before it
    is wrapped, the rest is as it was. *)
Lemma wrap_each_stops opt before c after :
  Forall (fun c => is_ReduceLROnPlateau (scheduler c) = false) before ->
  is_ReduceLROnPlateau (scheduler c) = true ->
  wrap_each opt (before ++ c :: after)
  = ((wrap opt <$> before) ++ c :: after, Some (ValueError plateau_message)).
Proof.
  intros Hb Hc. induction Hb as [|c' l H _ IH]; cbn.
  - rewrite Hc. reflexivity.
  - rewrite H, IH. reflexivity.
Qed.

(** A loop that did not raise met no [ReduceLROnPlateau]. *)
Lemma wrap_each_ok opt configs configs' :
  wrap_each opt configs = (configs', None) ->
  Forall (fun c => is_ReduceLROnPlateau (scheduler c) = false) configs
  /\ configs' = wrap opt <$> configs.
Proof.
  revert configs'. induction configs as [|c l IH]; cbn; intros configs'.
  - intros [= <-]. split; constructor.
  - destruct (is_ReduceLROnPlateau (scheduler c)) eqn:E; [discriminate|].
    destruct (wrap_each opt l) as [l' e]. intros [= <- ->].
    destruct (IH l' eq_refl) as [Hf ->]. split; [constructor; assumption|reflexivity].
Qed.


(** One-time construction, whatever the strategy: at most one optimizer
    is constructed, its state is loaded at most once, and the flag, the
    batch size and the peer handle are left alone. *)
Lemma initialize_at_most_once (self : t) :
  let out := run _initialize_hivemind self in
  count_events is_optimizer_new (emitted out) <= 1
  /\ count_events is_load_state (emitted out) <= 1
  /\ _hivemind_initialized (final out) = _hivemind_initialized self
  /\ _batch_size (final out) = _batch_size self
  /\ dht (final out) = dht self.
Proof.
  destruct self as [ip tbs bs fn req op zg rid reuse kw d hi os cfgs lm].
  unfold_m. destruct os as [|o [|o' os]]; cbn; [repeat split; lia| |repeat split; lia].
  destruct fn as [f|], (truthy req), (repeats_explicit kw); cbn.
  all: try (destruct (wrap_each _ cfgs) as [cfgs' [e|]]; cbn).
  all: destruct reuse; cbn.
  all: try (destruct lm as [[[[|name]|]]|]; cbn).
  all: repeat split; lia.
Qed.

(** With no optimizer registered, or more than one, nothing is done. *)
Lemma initialize_refuses (self : t) :
  length (optimizers self) <> 1 ->
  run _initialize_hivemind self
  = {| res := Raise (match optimizers self with
                     | [] => IndexError
                     | _ => MisconfigurationException one_optimizer_message
                     end);
       final := self;
       emitted := [] |}.
Proof.
  intros H. unfold run, _initialize_hivemind, bind, get, raise. cbn.
  destruct (optimizers self) as [|o [|o' os]]; cbn in *; [reflexivity|lia|reflexivity].
Qed.

(** With one optimizer registered, the optimizer constructed is
    [constructed self o], after at most the warning. *)
Lemma initialize_constructed (self : t) (o : optimizer_obj) :
  optimizers self = [o] ->
  repeats_explicit (_optimizer_kwargs self) = false ->
  exists pre tail,
    emitted (run _initialize_hivemind self) = pre ++ Optimizer_new (constructed self o) :: tail
    /\ count_events is_optimizer_new pre = 0.
Proof.
  destruct self as [ip tbs bs fn req op zg rid reuse kw d hi os cfgs lm].
  cbn. intros -> Hkw. unfold_m. unfold constructed. cbn. rewrite Hkw.
  destruct fn as [f|], (truthy req); cbn.
  all: try (destruct (wrap_each _ cfgs) as [cfgs' [e|]]; cbn).
  all: destruct reuse; cbn.
  all: try (destruct lm as [[[[|name]|]]|]; cbn).
  all: first [ eexists [], _; split; reflexivity
             | eexists [Warn scheduler_fn_warning], _; split; reflexivity ].
Qed.

Section HookFacts.
Context {Batch : Type} (extract_batch_size : Batch -> result Z).

(** Any hook leaves the flag set, and constructs and loads at most once. *)
Lemma hook_at_most_once (self : t) batch i d :
  let out := run (on_train_batch_start extract_batch_size batch i d) self in
  _hivemind_initialized (final out) = true
  /\ count_events is_optimizer_new (emitted out) <= 1
  /\ count_events is_load_state (emitted out) <= 1.
Proof.
  unfold run, on_train_batch_start, bind, get, modify.
  destruct (_hivemind_initialized self) eqn:Hi; cbn -[_initialize_hivemind].
  { rewrite Hi. repeat split; lia. }
  destruct (_batch_size self) as [n|] eqn:Hb; cbn -[_initialize_hivemind].
  - pose proof (initialize_at_most_once (set__hivemind_initialized true self))
      as (H1 & H2 & H3 & _).
    unfold run in *. destruct (_initialize_hivemind _) as [[[]|e] f ev]; cbn in *;
      repeat split; assumption.
  - destruct (extract_batch_size batch) as [n|e]; cbn -[_initialize_hivemind].
    + pose proof (initialize_at_most_once
                    (set__batch_size (Some n) (set__hivemind_initialized true self)))
        as (H1 & H2 & H3 & _).
      unfold run in *. destruct (_initialize_hivemind _) as [[[]|e] f ev]; cbn in *;
        repeat split; assumption.
    + destruct e; cbn; repeat split; lia.
Qed.

Lemma train_at_most_once (self : t) batches i :
  let out := run (train_batches extract_batch_size batches i) self in
  count_events is_optimizer_new (emitted out) <= 1
  /\ count_events is_load_state (emitted out) <= 1.
Proof.
  destruct batches as [|batch rest]; [cbn; split; lia|].
  pose proof (hook_at_most_once self batch i 0) as (Hf & H1 & H2).
  cbn zeta. rewrite (train_first extract_batch_size self batch rest i _ eq_refl).
  - split; assumption.
  - intros _. exact Hf.
Qed.
End HookFacts.

End ConstructionFacts.

Section Further.
Import HivemindStrategy StrategyFacts StringFacts ConstructionFacts Samples.

(** X1: the addresses the constructor prints, joined by commas, are read
    back as the same peer list, both from the environment variable
    (whatever was passed to the constructor) and from a string passed as
    [initial_peers], as long as no address holds a comma; when there was no
    address to print, what is read back is a list of one empty peer. *)
Theorem printed_addresses_parse_back (addresses : list string)
    (environ : gmap string string) (explicit : option peers) :
  Forall (fun a => has_char ","%char a = false) addresses ->
  let printed := join "," addresses in
  let read_back := match addresses with [] => [EmptyString] | _ => addresses end in
  _parse_env_initial_peers (<[INITIAL_PEERS_ENV := printed]> environ) explicit
    = Some (PeerList read_back)
  /\ _parse_env_initial_peers (delete INITIAL_PEERS_ENV environ) (Some (PeerStr printed))
     = Some (PeerList read_back).
Proof.
  intros Hall printed read_back. unfold _parse_env_initial_peers.
  rewrite lookup_insert_eq, lookup_delete_eq.
  subst printed read_back. rewrite (split_join addresses Hall). split; reflexivity.
Qed.

Lemma printed_addresses_parse_back_witness :
  Forall (fun a => has_char ","%char a = false)
         ["/ip4/10.0.0.7/tcp/4001"; "/ip4/10.0.0.8/tcp/4001"]
  /\ _parse_env_initial_peers
       (<[INITIAL_PEERS_ENV := join "," ["/ip4/10.0.0.7/tcp/4001"; "/ip4/10.0.0.8/tcp/4001"]]> ∅)
       (Some explicit_peers)
     = Some (PeerList ["/ip4/10.0.0.7/tcp/4001"; "/ip4/10.0.0.8/tcp/4001"]).
Proof.
  assert (H : Forall (fun a => has_char ","%char a = false)
                ["/ip4/10.0.0.7/tcp/4001"; "/ip4/10.0.0.8/tcp/4001"])
    by (repeat constructor).
  split; [exact H|].
  apply (printed_addresses_parse_back _ ∅ (Some explicit_peers) H).
Defined.

(** X2: a constructor that returns never keeps the peers as a string:
    [_initial_peers] is [None] exactly when the variable is not set and
    nothing was passed, and otherwise a list, which has at least one entry
    whenever it comes from the variable or from a string. *)
Theorem stored_peers_are_a_list (host : Host) (a : InitArgs) (s : t) (evs : list event) :
  __init__ host a = (Ok s, evs) ->
  (forall p, _initial_peers s <> Some (PeerStr p))
  /\ (_initial_peers s = None
      <-> environ host !! INITIAL_PEERS_ENV = None /\ initial_peers a = None)
  /\ (forall v, environ host !! INITIAL_PEERS_ENV = Some v ->
      exists first rest, _initial_peers s = Some (PeerList (first :: rest)))
  /\ (forall p, environ host !! INITIAL_PEERS_ENV = None ->
      initial_peers a = Some (PeerStr p) ->
      exists first rest, _initial_peers s = Some (PeerList (first :: rest))).
Proof.
  intros H. apply init_ok in H as [-> _]. cbn [_initial_peers].
  unfold _parse_env_initial_peers.
  assert (Hne : forall v, exists first rest, split ","%char v = first :: rest).
  { intros v. pose proof (split_nonempty ","%char v).
    destruct (split ","%char v) as [|x l]; [congruence|eauto]. }
  destruct (environ host !! INITIAL_PEERS_ENV) as [v|];
    destruct (initial_peers a) as [[p|l]|]; repeat split;
    try discriminate; try (intros [? ?]; discriminate); try reflexivity.
  all: try (intros ? [= <-]).
  all: try (destruct (Hne v) as (x & r & ->); eauto; fail).
  all: try (intros ? _ [= <-]; destruct (Hne p) as (x & r & ->); eauto; fail).
  all: try (intros ? ? ?; discriminate).
Qed.

Lemma stored_peers_are_a_list_witness :
  exists s evs,
    __init__ linux_with_peers default_args = (Ok s, evs)
    /\ exists first rest, _initial_peers s = Some (PeerList (first :: rest)).
Proof.
  eexists _, _. split; [reflexivity|].
  destruct (stored_peers_are_a_list linux_with_peers default_args _ _ eq_refl)
    as (_ & _ & H & _).
  apply (H "peerA,peerB"). vm_compute. reflexivity.
Defined.

(** X3: the constructor returns only on Linux.  Elsewhere it raises
    the configuration error before any call is made, so no peer handle is
    started; and whenever it returns, it ran on Linux, has started exactly
    one peer handle, and leaves the strategy uninitialised, with no
    optimizer. *)
Theorem constructor_returns_on_linux_only (host : Host) (a : InitArgs) :
  (platform_system host <> "Linux" ->
   __init__ host a = (Raise (MisconfigurationException not_linux_message), []))
  /\ (forall s evs,
        __init__ host a = (Ok s, evs) ->
        platform_system host = "Linux"
        /\ count_events is_dht_new evs = 1
        /\ _opt s = None
        /\ _hivemind_initialized s = false
        /\ optimizers s = []).
Proof.
  split.
  - intros H. unfold __init__. apply String.eqb_neq in H. rewrite H. reflexivity.
  - intros s evs H.
    assert (Hl : platform_system host = "Linux").
    { unfold __init__ in H.
      destruct (String.eqb (platform_system host) "Linux") eqn:E; [|discriminate].
      apply String.eqb_eq. exact E. }
    apply init_ok in H as [-> ->].
    split; [exact Hl|]. split; [|repeat split]. destruct (initial_peers a); reflexivity.
Qed.

Lemma constructor_returns_on_linux_only_witness :
  (exists s evs, __init__ linux default_args = (Ok s, evs)
                 /\ count_events is_dht_new evs = 1
                 /\ _opt s = None)
  /\ __init__ {| platform_system := "Windows"; environ := ∅; visible_maddrs := [] |}
              default_args
     = (Raise (MisconfigurationException not_linux_message), []).
Proof.
  split.
  - eexists _, _. split; [reflexivity|].
    destruct (constructor_returns_on_linux_only linux default_args) as [_ H].
    destruct (H _ _ eq_refl) as (_ & H1 & H2 & _). split; [exact H1 | exact H2].
  - apply (constructor_returns_on_linux_only
             {| platform_system := "Windows"; environ := ∅; visible_maddrs := [] |}
             default_args).
    discriminate.
Defined.



(** X5: when one-time construction makes the call of
    [hivemind.Optimizer] (no keyword of the caller repeats an explicit
    keyword of it), the registered optimizer is handed over by its type,
    with its parameter groups and with [scheduler_fn], exactly when one of
    [delay_optimizer_step], [delay_state_averaging] and
    [offload_optimizer] is set; otherwise the instance itself is handed
    over, with no parameter groups and with no scheduler even if a
    [scheduler_fn] was supplied.  [delay_grad_averaging] plays no part. *)
Theorem optimizer_by_type_with_delay_flags (host : Host) (a : InitArgs) (s : t)
    (evs : list event) (o : TorchOptimizer) (configs : list LRSchedulerConfig)
    (module : option LightningModule) :
  __init__ host a = (Ok s, evs) ->
  repeats_explicit (optimizer_kwargs a) = false ->
  let flagged := truthy (delay_optimizer_step a) || delay_state_averaging a
                 || truthy (offload_optimizer a) in
  exists opt,
    Optimizer_new opt ∈ emitted (run _initialize_hivemind (connect [o] configs module s))
    /\ o_optimizer opt = (if flagged then ByType (opt_class o) else ByInstance o)
    /\ o_params opt = (if flagged then Some (param_groups o) else None)
    /\ o_scheduler opt = (if flagged then scheduler_fn a else None).
Proof.
  intros H Hr flagged. apply init_ok in H as [-> _].
  set (self := connect _ _ _ _).
  assert (Hrep : repeats_explicit (_optimizer_kwargs self) = false)
    by (rewrite <- Hr; apply repeats_explicit_make).
  destruct (initialize_constructed self (TorchOpt o) eq_refl Hrep) as (pre & tail & Hem & _).
  exists (constructed self (TorchOpt o)).
  split; [rewrite Hem; apply elem_of_app; right; apply elem_of_cons; left; reflexivity|].
  assert (Hreq : truthy (_require_scheduler_fn self) = flagged).
  { cbn. rewrite !truthy_py_or. subst flagged.
    destruct (delay_state_averaging a); reflexivity. }
  unfold constructed. cbn [o_optimizer o_params o_scheduler]. rewrite Hreq.
  repeat split.
Qed.

Lemma optimizer_by_type_with_delay_flags_witness :
  exists s evs,
    __init__ linux (with_flags false None true None false) = (Ok s, evs)
    /\ exists opt,
         Optimizer_new opt
           ∈ emitted (run _initialize_hivemind (connect [sgd] [] None s))
         /\ o_optimizer opt = ByInstance sgd
         /\ o_params opt = None
         /\ o_scheduler opt = None.
Proof.
  eexists _, _. split; [reflexivity|].
  match goal with
  | |- context [connect _ _ _ ?s] =>
      apply (optimizer_by_type_with_delay_flags linux (with_flags false None true None false)
               s _ sgd [] None eq_refl)
  end.
  vm_compute. reflexivity.
Defined.

(** X6: when one-time construction returns, the registered schedulers
    have each been replaced, in place and in order, by a new wrapper around
    them (counter -1, bound to the constructed optimizer) if no
    [scheduler_fn] was supplied, and are left as they were if one was; the
    strategy then holds the constructed optimizer as its only optimizer. *)
Theorem schedulers_wrapped_when_no_factory (self : t) (o : optimizer_obj) :
  optimizers self = [o] ->
  res (run _initialize_hivemind self) = Ok tt ->
  let out := run _initialize_hivemind self in
  let opt := constructed self o in
  lr_scheduler_configs (final out)
    = match _scheduler_fn self with
      | None => wrap opt <$> lr_scheduler_configs self
      | Some _ => lr_scheduler_configs self
      end
  /\ optimizers (final out) = [HivemindOpt opt]
  /\ _opt (final out) = Some opt.
Proof.
  destruct self as [ip tbs bs fn req op zg rid reuse kw d hi os cfgs lm].
  cbn [optimizers]. intros ->. unfold_m. unfold constructed. cbn.
  destruct fn as [f|], (truthy req), (repeats_explicit kw); cbn.
  all: try discriminate.
  all: try (match goal with
            | |- context [wrap_each ?opt ?c] =>
                pose proof (wrap_each_ok opt c) as Hw;
                destruct (wrap_each opt c) as [cfgs' [e|]]; cbn;
                [discriminate | destruct (Hw cfgs' eq_refl) as [_ ->]]
            end).
  all: destruct reuse; cbn.
  all: try (destruct lm as [[[[|name]|]]|]; cbn).
  all: try discriminate.
  all: intros _; repeat split.
Qed.

Lemma schedulers_wrapped_when_no_factory_witness :
  exists s evs,
    __init__ linux (with_flags false None false None false) = (Ok s, evs)
    /\ let self := connect [sgd] [exponential_lr] None s in
       lr_scheduler_configs (final (run _initialize_hivemind self))
       = [wrap (constructed self (TorchOpt sgd)) exponential_lr].
Proof.
  eexists _, _. split; [reflexivity|]. cbn zeta.
  match goal with
  | |- context [run _initialize_hivemind ?self] =>
      pose proof (schedulers_wrapped_when_no_factory self (TorchOpt sgd)) as H
  end.
  destruct H as (H & _); [reflexivity | reflexivity |].
  exact H.
Defined.

(** X7: when a [ReduceLROnPlateau] makes one-time construction raise
    (one optimizer registered, no [scheduler_fn], the call of
    [hivemind.Optimizer] made without a repeated keyword), the schedulers
    registered before the first such one have already been replaced by
    wrappers; that one and those after it are untouched. *)
Theorem schedulers_before_plateau_stay_wrapped (self : t) (o : optimizer_obj)
    (before after : list LRSchedulerConfig) (config : LRSchedulerConfig) :
  optimizers self = [o] ->
  _scheduler_fn self = None ->
  repeats_explicit (_optimizer_kwargs self) = false ->
  lr_scheduler_configs self = before ++ config :: after ->
  Forall (fun c => is_ReduceLROnPlateau (scheduler c) = false) before ->
  is_ReduceLROnPlateau (scheduler config) = true ->
  let out := run _initialize_hivemind self in
  res out = Raise (ValueError plateau_message)
  /\ lr_scheduler_configs (final out)
     = (wrap (constructed self o) <$> before) ++ config :: after.
Proof.
  destruct self as [ip tbs bs fn req op zg rid reuse kw d hi os cfgs lm].
  cbn [optimizers _scheduler_fn lr_scheduler_configs _optimizer_kwargs].
  intros -> -> Hkw -> Hb Hc.
  unfold_m. unfold constructed. cbn. rewrite Hkw.
  destruct (truthy req); cbn.
  all: match goal with
       | |- context [wrap_each ?opt _] => rewrite (wrap_each_stops opt before config after Hb Hc)
       end.
  all: cbn; split; reflexivity.
Qed.

Lemma schedulers_before_plateau_stay_wrapped_witness :
  exists s evs,
    __init__ linux (with_flags false None false None false) = (Ok s, evs)
    /\ let self := connect [sgd] [exponential_lr; plateau; exponential_lr] None s in
       let out := run _initialize_hivemind self in
       res out = Raise (ValueError plateau_message)
       /\ lr_scheduler_configs (final out)
          = [wrap (constructed self (TorchOpt sgd)) exponential_lr; plateau; exponential_lr].
Proof.
  eexists _, _. split; [reflexivity|]. cbn zeta.
  match goal with
  | |- context [run _initialize_hivemind ?self] =>
      apply (schedulers_before_plateau_stay_wrapped self (TorchOpt sgd)
               [exponential_lr] [exponential_lr] plateau eq_refl eq_refl)
  end.
  - vm_compute. reflexivity.
  - reflexivity.
  - repeat constructor.
  - reflexivity.
Defined.

(** X8: the optimizer constructed before a [ReduceLROnPlateau] is
    rejected (one optimizer registered, no [scheduler_fn], the call of
    [hivemind.Optimizer] made without a repeated keyword) is not kept:
    [_opt] stays empty and the optimizer list is not replaced, so the
    teardown that follows shuts down the peer handle but never that
    optimizer. *)
Theorem rejected_construction_is_not_shut_down (self : t) (o : optimizer_obj)
    (config : LRSchedulerConfig) :
  optimizers self = [o] ->
  _scheduler_fn self = None ->
  repeats_explicit (_optimizer_kwargs self) = false ->
  _opt self = None ->
  config ∈ lr_scheduler_configs self ->
  is_ReduceLROnPlateau (scheduler config) = true ->
  let out := run _initialize_hivemind self in
  Optimizer_new (constructed self o) ∈ emitted out
  /\ _opt (final out) = None
  /\ emitted (run teardown (final out))
     = [Log_info "Shutting down hivemind DHT."; DHT_shutdown (dht self); Super_teardown].
Proof.
  destruct self as [ip tbs bs fn req op zg rid reuse kw d hi os cfgs lm].
  cbn [optimizers _scheduler_fn lr_scheduler_configs _opt _optimizer_kwargs].
  intros -> -> Hkw -> Hin Hc.
  assert (Hex : Exists (fun c => is_ReduceLROnPlateau (scheduler c) = true) cfgs).
  { apply Exists_exists. exists config. split; [exact Hin | exact Hc]. }
  unfold_m. unfold constructed. cbn. rewrite Hkw.
  destruct (truthy req); cbn.
  all: match goal with
       | |- context [wrap_each ?opt ?c] =>
           pose proof (wrap_each_raises opt c Hex) as Hw;
           destruct (wrap_each opt c) as [cfgs' e]; cbn in Hw; subst e; cbn
       end.
  all: split; [|split].
  all: try (destruct zg, lm; reflexivity).
  all: repeat constructor.
Qed.

Lemma rejected_construction_is_not_shut_down_witness :
  exists s evs,
    __init__ linux (with_flags false None false None false) = (Ok s, evs)
    /\ let self := connect [sgd] [plateau] None s in
       let out := run _initialize_hivemind self in
       Optimizer_new (constructed self (TorchOpt sgd)) ∈ emitted out
       /\ _opt (final out) = None
       /\ emitted (run teardown (final out))
          = [Log_info "Shutting down hivemind DHT."; DHT_shutdown (dht self); Super_teardown].
Proof.
  eexists _, _. split; [reflexivity|]. cbn zeta.
  match goal with
  | |- context [run _initialize_hivemind ?self] =>
      apply (rejected_construction_is_not_shut_down self (TorchOpt sgd) plateau
               eq_refl eq_refl)
  end.
  - vm_compute. reflexivity.
  - reflexivity.
  - repeat constructor.
  - reflexivity.
Defined.

(** X9: one-time construction makes the call that constructs the
    external optimizer exactly when one optimizer is registered and no
    keyword of the caller repeats an explicit keyword of that call.  With
    none registered it raises [IndexError], and with any other number than
    one it raises with the strategy unchanged and nothing called; with one
    registered and a repeated keyword it raises [TypeError] with the
    strategy unchanged. *)
Theorem constructs_iff_one_optimizer (self : t) :
  let out := run _initialize_hivemind self in
  ((exists opt, Optimizer_new opt ∈ emitted out)
   <-> length (optimizers self) = 1
       /\ repeats_explicit (_optimizer_kwargs self) = false)
  /\ (optimizers self = [] ->
      out = {| res := Raise IndexError; final := self; emitted := [] |})
  /\ (length (optimizers self) <> 1 ->
      final out = self /\ emitted out = [] /\ res out <> Ok tt)
  /\ (length (optimizers self) = 1 ->
      repeats_explicit (_optimizer_kwargs self) = true ->
      res out = Raise TypeError /\ final out = self).
Proof.
  cbn zeta. destruct (decide (length (optimizers self) = 1)) as [H1|H1].
  - destruct (optimizers self) as [|o [|o' os]] eqn:Ho; try discriminate.
    destruct (repeats_explicit (_optimizer_kwargs self)) eqn:Hkw.
    + rewrite (initialize_repeats self o Ho Hkw). cbn [res final emitted].
      split; [|split; [|split]]; [|discriminate|congruence|intros _ _; split; reflexivity].
      split; [|intros [_ ?]; discriminate].
      intros [opt H]. exfalso. destruct (_ && _).
      * apply elem_of_cons in H as [H|H]; [discriminate|].
        apply elem_of_nil in H. exact H.
      * apply elem_of_nil in H. exact H.
    + destruct (initialize_constructed self o Ho Hkw) as (pre & tail & Hem & _).
      split; [|split; [|split]]; [|discriminate|congruence|intros _ ?; discriminate].
      split; [intros _; split; reflexivity|]. intros _. eexists. rewrite Hem.
      apply elem_of_app. right. constructor.
  - rewrite (initialize_refuses self H1). cbn. split; [|split; [|split]].
    + split; [|intros [? _]; congruence]. intros [opt H]. apply elem_of_nil in H.
      contradiction.
    + intros ->. reflexivity.
    + intros _. repeat split. discriminate.
    + intros ?. congruence.
Qed.

Lemma constructs_iff_one_optimizer_witness :
  exists s evs,
    __init__ linux default_args = (Ok s, evs)
    /\ run _initialize_hivemind s
       = {| res := Raise IndexError; final := s; emitted := [] |}.
Proof.
  eexists _, _. split; [reflexivity|].
  match goal with
  | |- run _initialize_hivemind ?self = _ =>
      destruct (constructs_iff_one_optimizer self) as (_ & H & _)
  end.
  apply H. reflexivity.
Defined.

(** X10: over any run of per-batch hooks, from any state and whatever
    the batches and the batch-size inference do, the external optimizer is
    constructed at most once and [load_state_from_peers] is called at most
    once; from a state with the flag set, nothing is called and nothing
    changes. *)
Theorem construction_at_most_once_per_run {Batch : Type}
    (extract_batch_size : Batch -> result Z) (self : t) (batches : list Batch) (idx : Z) :
  let out := run (train_batches extract_batch_size batches idx) self in
  count_events is_optimizer_new (emitted out) <= 1
  /\ count_events is_load_state (emitted out) <= 1
  /\ (_hivemind_initialized self = true ->
      out = {| res := Ok tt; final := self; emitted := [] |}).
Proof.
  cbn zeta.
  destruct (train_at_most_once extract_batch_size self batches idx) as [H1 H2].
  split; [exact H1|]. split; [exact H2|].
  apply train_initialized.
Qed.

Lemma construction_at_most_once_per_run_witness :
  exists s evs,
    __init__ linux (with_flags true None false None true) = (Ok s, evs)
    /\ let self := connect [sgd] [exponential_lr] (Some user_module) s in
       let trained := final (run (train_batches size_of [8%nat] 0) self) in
       run (train_batches size_of [8%nat; 8%nat] 1) trained
       = {| res := Ok tt; final := trained; emitted := [] |}.
Proof.
  eexists _, _. split; [reflexivity|]. cbn zeta.
  match goal with
  | |- run (train_batches _ _ _) ?trained = _ =>
      destruct (construction_at_most_once_per_run size_of trained [8%nat; 8%nat] 1)
        as (_ & _ & H)
  end.
  apply H. reflexivity.
Defined.

(** X11: one-time construction is attempted once.  After a first hook,
    whether it returned or raised (batch size not inferable, optimizer
    count, rejected scheduler, missing module), the flag is set and a later
    hook returns at once: it calls nothing and changes nothing. *)
Theorem construction_attempted_once {Batch : Type}
    (extract_batch_size : Batch -> result Z) (self : t)
    (batch batch' : Batch) (batch_idx batch_idx' dataloader_idx dataloader_idx' : Z) :
  let first := run (on_train_batch_start extract_batch_size batch batch_idx dataloader_idx)
                   self in
  _hivemind_initialized (final first) = true
  /\ run (on_train_batch_start extract_batch_size batch' batch_idx' dataloader_idx')
         (final first)
     = {| res := Ok tt; final := final first; emitted := [] |}.
Proof.
  cbn zeta.
  destruct (hook_at_most_once extract_batch_size self batch batch_idx dataloader_idx)
    as (Hf & _).
  split; [exact Hf|]. apply hook_initialized. exact Hf.
Qed.

(** X12: a batch size given to the constructor is the one the external
    optimizer gets: the first hook then does the same whatever the batch
    and the inference are, so the batch is not inspected. *)
Theorem supplied_batch_size_skips_inference {Batch Batch' : Type}
    (extract_batch_size : Batch -> result Z) (extract_batch_size' : Batch' -> result Z)
    (self : t) (batch : Batch) (batch' : Batch')
    (batch_idx batch_idx' dataloader_idx dataloader_idx' : Z) (n : Z) :
  _batch_size self = Some n ->
  let out := run (on_train_batch_start extract_batch_size batch batch_idx dataloader_idx)
                 self in
  out = run (on_train_batch_start extract_batch_size' batch' batch_idx' dataloader_idx') self
  /\ _batch_size (final out) = Some n
  /\ forall opt, Optimizer_new opt ∈ emitted out -> o_batch_size_per_step opt = Some n.
Proof.
  intros Hb. cbn zeta.
  assert (Hout : forall B (ex : B -> result Z) b i d,
             run (on_train_batch_start ex b i d) self
             = if _hivemind_initialized self
               then {| res := Ok tt; final := self; emitted := [] |}
               else run _initialize_hivemind (set__hivemind_initialized true self)).
  { intros B ex b i d. unfold run, on_train_batch_start, bind, get, modify.
    destruct (_hivemind_initialized self); cbn -[_initialize_hivemind]; [reflexivity|].
    rewrite Hb. cbn -[_initialize_hivemind].
    destruct (_initialize_hivemind _) as [[[]|e] f ev]; reflexivity. }
  rewrite !Hout. split; [reflexivity|].
  destruct (_hivemind_initialized self).
  - cbn. split; [exact Hb|]. intros opt H. apply elem_of_nil in H. contradiction.
  - set (self' := set__hivemind_initialized true self).
    destruct (initialize_at_most_once self') as (Hn & _ & _ & Hbs & _).
    split; [rewrite Hbs; exact Hb|].
    intros opt Hin.
    destruct (decide (length (optimizers self') = 1)) as [H1|H1].
    + destruct (optimizers self') as [|o [|o' os]] eqn:Ho; try discriminate.
      assert (Hopt : forall evs, count_events is_optimizer_new evs = 0 ->
                                 Optimizer_new opt ∉ evs).
      { intros evs. induction evs as [|e evs IH]; [intros _; apply not_elem_of_nil|].
        unfold count_events. cbn. destruct e; cbn; try discriminate.
        all: intros H0 Hi; apply elem_of_cons in Hi as [Hi|Hi]; [discriminate|].
        all: exact (IH H0 Hi). }
      destruct (repeats_explicit (_optimizer_kwargs self')) eqn:Hkw.
      { exfalso. rewrite (initialize_repeats self' o Ho Hkw) in Hin. cbn [emitted] in Hin.
        destruct (_ && _) in Hin.
        - apply elem_of_cons in Hin as [Hin|Hin]; [discriminate|].
          apply elem_of_nil in Hin. exact Hin.
        - apply elem_of_nil in Hin. exact Hin. }
      destruct (initialize_constructed self' o Ho Hkw) as (pre & tail & Hem & Hpre).
      rewrite Hem in Hin, Hn. rewrite count_events_app in Hn.
      apply elem_of_app in Hin as [Hin|Hin]; [exfalso; exact (Hopt pre Hpre Hin)|].
      apply elem_of_cons in Hin as [Hin|Hin].
      * injection Hin as ->. exact Hb.
      * exfalso. apply (Hopt tail); [|exact Hin].
        unfold count_events in *. cbn in Hn. lia.
    + rewrite (initialize_refuses self' H1) in Hin. cbn in Hin.
      apply elem_of_nil in Hin. contradiction.
Qed.

Lemma supplied_batch_size_skips_inference_witness :
  exists s evs,
    __init__ linux (with_flags false None false None false) = (Ok s, evs)
    /\ let self := connect [sgd] [] None s in
       run (on_train_batch_start size_of 8%nat 0 0) self
       = run (on_train_batch_start no_size 0%nat 5 1) self.
Proof.
  eexists _, _. split; [reflexivity|]. cbn zeta.
  match goal with
  | |- run _ ?self = _ =>
      destruct (supplied_batch_size_skips_inference size_of no_size self 8%nat 0%nat
                  0 5 0 1 4 eq_refl) as (H & _)
  end.
  exact H.
Defined.

(** X13: a batch size inferred on the first hook is logged and stored
    in [_batch_size]; and when the call of [hivemind.Optimizer] is made
    right after (no keyword of the caller repeats an explicit keyword of
    it), that call gets the inferred size. *)
Theorem inferred_batch_size_is_used {Batch : Type}
    (extract_batch_size : Batch -> result Z) (self : t) (o : optimizer_obj)
    (batch : Batch) (batch_idx dataloader_idx : Z) (n : Z) :
  _hivemind_initialized self = false ->
  _batch_size self = None ->
  extract_batch_size batch = Ok n ->
  optimizers self = [o] ->
  let out := run (on_train_batch_start extract_batch_size batch batch_idx dataloader_idx)
                 self in
  _batch_size (final out) = Some n
  /\ exists tail,
       emitted out
       = Log_info ("Found per machine batch size automatically from the batch: "
                   +:+ pretty n) :: tail
       /\ (repeats_explicit (_optimizer_kwargs self) = false ->
           exists opt, Optimizer_new opt ∈ tail /\ o_batch_size_per_step opt = Some n).
Proof.
  intros Hi Hb He Ho. cbn zeta.
  set (self' := set__batch_size (Some n) (set__hivemind_initialized true self)).
  assert (Hout : run (on_train_batch_start extract_batch_size batch batch_idx dataloader_idx)
                     self
                 = {| res := res (run _initialize_hivemind self');
                      final := final (run _initialize_hivemind self');
                      emitted :=
                        Log_info ("Found per machine batch size automatically from the batch: "
                                  +:+ pretty n)
                        :: emitted (run _initialize_hivemind self') |}).
  { unfold run, on_train_batch_start, bind, get, modify.
    rewrite Hi. cbn -[_initialize_hivemind]. rewrite Hb, He. cbn -[_initialize_hivemind].
    fold self'. destruct (_initialize_hivemind self') as [[[]|e] f ev]; reflexivity. }
  rewrite Hout. cbn [final emitted].
  destruct (initialize_at_most_once self') as (_ & _ & _ & Hbs & _).
  split; [rewrite Hbs; reflexivity|].
  exists (emitted (run _initialize_hivemind self')).
  split; [reflexivity|]. intros Hkw.
  destruct (initialize_constructed self' o Ho Hkw) as (pre & tail & Hem & _).
  exists (constructed self' o).
  split; [|reflexivity].
  rewrite Hem. apply elem_of_app. right. constructor.
Qed.

Lemma inferred_batch_size_is_used_witness :
  exists s evs,
    __init__ linux default_args = (Ok s, evs)
    /\ _batch_size
         (final (run (on_train_batch_start size_of 8%nat 0 0) (connect [sgd] [] None s)))
       = Some 8%Z.
Proof.
  eexists _, _. split; [reflexivity|].
  match goal with
  | |- context [run _ ?self] =>
      destruct (inferred_batch_size_is_used size_of self (TorchOpt sgd) 8%nat 0 0 8
                  eq_refl eq_refl eq_refl eq_refl) as (H & _)
  end.
  exact H.
Defined.

(** X14: with gradient-buffer reuse and no module attached, when the
    call of [hivemind.Optimizer] is made (one optimizer registered, no
    repeated keyword) and no scheduler is rejected, one-time construction
    raises [AssertionError] only after everything else is done: the
    optimizer is constructed, its state loaded, the optimizer list
    replaced and [_opt] set, so the teardown that follows shuts that
    optimizer down. *)
Theorem reuse_without_module_fails_late (self : t) (o : optimizer_obj) :
  optimizers self = [o] ->
  repeats_explicit (_optimizer_kwargs self) = false ->
  _reuse_grad_buffers self = true ->
  lightning_module self = None ->
  (_scheduler_fn self = None ->
   Forall (fun c => is_ReduceLROnPlateau (scheduler c) = false) (lr_scheduler_configs self)) ->
  let out := run _initialize_hivemind self in
  let opt := constructed self o in
  res out = Raise AssertionError
  /\ Load_state_from_peers ∈ emitted out
  /\ optimizers (final out) = [HivemindOpt opt]
  /\ _opt (final out) = Some opt
  /\ _optimizer_zero_grad_original (final out) = _optimizer_zero_grad_original self
  /\ emitted (run teardown (final out))
     = [Optimizer_shutdown opt; Log_info "Shutting down hivemind DHT.";
        DHT_shutdown (dht self); Super_teardown].
Proof.
  destruct self as [ip tbs bs fn req op zg rid reuse kw d hi os cfgs lm].
  cbn [optimizers _reuse_grad_buffers lightning_module _scheduler_fn lr_scheduler_configs
       _optimizer_kwargs].
  intros -> Hkw -> -> Hplain. unfold_m. unfold constructed. cbn. rewrite Hkw.
  destruct fn as [f|], (truthy req); cbn.
  all: try (match goal with
            | |- context [wrap_each ?opt ?c] =>
                rewrite (wrap_each_wrapped opt c (Hplain eq_refl)); cbn
            end).
  all: split; [reflexivity|]; split; [repeat constructor|].
  all: destruct zg; repeat split.
Qed.

Lemma reuse_without_module_fails_late_witness :
  exists s evs,
    __init__ linux (with_flags false None false None true) = (Ok s, evs)
    /\ let self := connect [sgd] [exponential_lr] None s in
       let out := run _initialize_hivemind self in
       res out = Raise AssertionError
       /\ _opt (final out) = Some (constructed self (TorchOpt sgd)).
Proof.
  eexists _, _. split; [reflexivity|]. cbn zeta.
  match goal with
  | |- context [run _initialize_hivemind ?self] =>
      destruct (reuse_without_module_fails_late self (TorchOpt sgd) eq_refl)
        as (H1 & _ & _ & H2 & _)
  end.
  - vm_compute. reflexivity.
  - reflexivity.
  - reflexivity.
  - intros _. repeat constructor.
  - split; [exact H1 | exact H2].
Defined.

(** X15: when one-time construction returns: with gradient-buffer reuse
    the module's [optimizer_zero_grad] has been saved and set to [None],
    with one warning exactly when the module overrides it; without
    gradient-buffer reuse the module and the saved hook are untouched and
    there is no such warning. *)
Theorem zero_grad_disabled_with_reuse_only (self : t) (o : optimizer_obj) :
  optimizers self = [o] ->
  res (run _initialize_hivemind self) = Ok tt ->
  let out := run _initialize_hivemind self in
  if _reuse_grad_buffers self
  then exists m,
         lightning_module self = Some m
         /\ lightning_module (final out) = Some {| optimizer_zero_grad := None |}
         /\ _optimizer_zero_grad_original (final out) = optimizer_zero_grad m
         /\ count_warn zero_grad_warning (emitted out)
            = (if is_overridden_optimizer_zero_grad (Some m) then 1 else 0)
  else lightning_module (final out) = lightning_module self
       /\ _optimizer_zero_grad_original (final out) = _optimizer_zero_grad_original self
       /\ count_warn zero_grad_warning (emitted out) = 0.
Proof.
  destruct self as [ip tbs bs fn req op zg rid reuse kw d hi os cfgs lm].
  cbn [optimizers _reuse_grad_buffers]. intros ->. unfold_m. cbn.
  destruct fn as [f|], (truthy req), (repeats_explicit kw); cbn.
  all: try (destruct reuse; discriminate).
  all: try (destruct (wrap_each _ cfgs) as [cfgs' [e|]]; cbn).
  all: try discriminate.
  all: destruct reuse; cbn.
  all: try (destruct lm as [[[[|name]|]]|]; cbn).
  all: try discriminate.
  all: intros _.
  all: first [ eexists; repeat split | repeat split ].
Qed.

Lemma zero_grad_disabled_with_reuse_only_witness :
  exists s evs,
    __init__ linux (with_flags false None false None true) = (Ok s, evs)
    /\ let out := run _initialize_hivemind
                      (connect [sgd] [exponential_lr] (Some user_module) s) in
       exists m,
         Some user_module = Some m
         /\ lightning_module (final out) = Some {| optimizer_zero_grad := None |}
         /\ _optimizer_zero_grad_original (final out) = optimizer_zero_grad m
         /\ count_warn zero_grad_warning (emitted out)
            = (if is_overridden_optimizer_zero_grad (Some m) then 1 else 0).
Proof.
  eexists _, _. split; [reflexivity|]. cbn zeta.
  match goal with
  | |- context [run _initialize_hivemind ?self] =>
      apply (zero_grad_disabled_with_reuse_only self (TorchOpt sgd) eq_refl eq_refl)
  end.
Defined.

(** X16: [num_peers] is 1 for a strategy as constructed and stays 1
    while [_opt] is empty, in particular after a one-time construction
    that refused the optimizers; once one-time construction has returned
    it is what the constructed optimizer's tracker reports, and teardown
    does not change it. *)
Theorem num_peers_follows_the_optimizer (reported : HivemindOptimizer -> Z) (self : t) :
  let out := run _initialize_hivemind self in
  (_opt self = None -> num_peers reported self = 1%Z)
  /\ (_opt self = None -> length (optimizers self) <> 1 ->
      num_peers reported (final out) = 1%Z)
  /\ (forall o, optimizers self = [o] -> res out = Ok tt ->
      num_peers reported (final out) = reported (constructed self o))
  /\ num_peers reported (final (run teardown self)) = num_peers reported self.
Proof.
  cbn zeta. split; [|split; [|split]].
  - unfold num_peers. intros ->. reflexivity.
  - intros Hopt Hlen. rewrite (initialize_refuses self Hlen). cbn.
    unfold num_peers. rewrite Hopt. reflexivity.
  - destruct self as [ip tbs bs fn req op zg rid reuse kw d hi os cfgs lm].
    cbn [optimizers]. intros o ->. unfold_m. unfold num_peers, constructed. cbn.
    destruct fn as [f|], (truthy req), (repeats_explicit kw); cbn.
    all: try discriminate.
    all: try (destruct (wrap_each _ cfgs) as [cfgs' [e|]]; cbn).
    all: try discriminate.
    all: destruct reuse; cbn.
    all: try (destruct lm as [[[[|name]|]]|]; cbn).
    all: try discriminate.
    all: reflexivity.
  - destruct self as [ip tbs bs fn req [op|] [zg|] rid reuse kw d hi os cfgs [lm|]];
      reflexivity.
Qed.

Lemma num_peers_follows_the_optimizer_witness :
  exists s evs,
    __init__ linux default_args = (Ok s, evs)
    /\ num_peers (fun _ => 3%Z) s = 1%Z
    /\ num_peers (fun _ => 3%Z)
         (final (run _initialize_hivemind (connect [sgd] [] None s))) = 3%Z.
Proof.
  eexists _, _. split; [reflexivity|]. split.
  - match goal with
    | |- num_peers _ ?self = _ =>
        destruct (num_peers_follows_the_optimizer (fun _ => 3%Z) self) as (H & _)
    end.
    apply H. reflexivity.
  - match goal with
    | |- context [run _initialize_hivemind ?self] =>
        destruct (num_peers_follows_the_optimizer (fun _ => 3%Z) self) as (_ & _ & H & _)
    end.
    apply (H (TorchOpt sgd)); reflexivity.
Defined.

(** X17: [setup] returns exactly when a model is attached and the
    accelerator is the CUDA or the CPU one.  Otherwise it raises before
    anything is called or changed ([super().setup] is not reached, no
    scaler is installed): [AssertionError] when there is no model, whatever
    the accelerator, and the configuration error naming the accelerator's
    class when there is a model. *)
Theorem setup_needs_model_and_known_accelerator (current_device : Z) (self : Placement.t) :
  let '(r, self', calls) := Placement.setup current_device self in
  (r = Ok tt
   <-> Placement.model self <> None
       /\ (Placement.accelerator self = Placement.CUDAAccelerator
           \/ Placement.accelerator self = Placement.CPUAccelerator))
  /\ (r <> Ok tt -> self' = self /\ calls = [])
  /\ (Placement.model self = None -> r = Raise AssertionError)
  /\ (forall m class_repr,
        Placement.model self = Some m ->
        Placement.accelerator self = Placement.OtherAccelerator class_repr ->
        r = Raise (MisconfigurationException
                     (Placement.unknown_accelerator_message class_repr))).
Proof.
  destruct self as [acc [m|] [prec sc]]; destruct acc as [| |class_repr];
    unfold Placement.setup, Placement.model_to_device, Placement.root_device; cbn.
  all: try destruct (String.eqb prec "16"); cbn.
  all: repeat split; try discriminate; try congruence; auto.
  all: try (intros [H _]; congruence).
  all: try (intros [_ [H|H]]; discriminate).
  all: try (intros ? ? ? [= <-]; reflexivity).
  all: try (intros ? ? ? ?; discriminate).
Qed.

Lemma setup_needs_model_and_known_accelerator_witness :
  fst (fst (Placement.setup 0 tpu))
  = Raise (MisconfigurationException
             (Placement.unknown_accelerator_message "<class 'XLAAccelerator'>")).
Proof.
  pose proof (setup_needs_model_and_known_accelerator 0 tpu) as H.
  destruct (Placement.setup 0 tpu) as [[r self'] calls].
  destruct H as (_ & _ & _ & H).
  apply (H {| Placement.placed_on := None |} "<class 'XLAAccelerator'>"); reflexivity.
Defined.

(** X18: when [setup] returns, the model has been moved first, to the
    current CUDA device or to the CPU according to the accelerator, then
    [super().setup] has run, and last the gradient scaler of hivemind has
    been installed exactly when the precision is the string 16; with any
    other precision the scaler of the plugin is the one it had. *)
Theorem setup_moves_model_then_installs_scaler (current_device : Z) (self : Placement.t)
    (self' : Placement.t) (calls : list Placement.call) :
  Placement.setup current_device self = (Ok tt, self', calls) ->
  let d := match Placement.accelerator self with
           | Placement.CUDAAccelerator => Placement.cuda current_device
           | _ => Placement.cpu
           end in
  let half := String.eqb (Placement.precision (Placement.precision_plugin self)) "16" in
  Placement.model self' = Some {| Placement.placed_on := Some d |}
  /\ calls = Placement.Model_to d :: Placement.Super_setup
             :: (if half then [Placement.GradScaler_new] else [])
  /\ Placement.scaler (Placement.precision_plugin self')
     = (if half then Some Placement.GradScaler_of_hivemind
        else Placement.scaler (Placement.precision_plugin self))
  /\ Placement.precision (Placement.precision_plugin self')
     = Placement.precision (Placement.precision_plugin self)
  /\ Placement.accelerator self' = Placement.accelerator self.
Proof.
  destruct self as [acc [m|] [prec sc]]; destruct acc as [| |class_repr];
    unfold Placement.setup, Placement.model_to_device, Placement.root_device; cbn.
  all: try discriminate.
  all: destruct (String.eqb prec "16"); cbn.
  all: intros [= <- <-]; repeat split.
Qed.

Lemma setup_moves_model_then_installs_scaler_witness :
  exists self',
    Placement.setup 1 gpu_half
    = (Ok tt, self',
       [Placement.Model_to (Placement.cuda 1); Placement.Super_setup;
        Placement.GradScaler_new])
    /\ Placement.scaler (Placement.precision_plugin self')
       = Some Placement.GradScaler_of_hivemind.
Proof.
  eexists. split; [reflexivity|].
  destruct (setup_moves_model_then_installs_scaler 1 gpu_half _ _ eq_refl)
    as (_ & _ & H & _).
  exact H.
Defined.

End Further.

Section FurtherShim.
Import HiveMindScheduler ShimFacts Samples.
Local Open Scope Z_scope.



Section WrappedFacts.
Context {S D : Type} `{!Scheduler S D}.

Lemma deliver_same_epoch (epoch : option Z) (counters : list Z) (s : S) :
  deliver ((fun c => {| epoch_arg := epoch; counter_at_call := c |}) <$> counters) s
  = Nat.iter (length counters) (scheduler_step epoch) s.
Proof.
  unfold deliver. revert s. induction counters as [|c l IH]; intros s; [reflexivity|].
  cbn [fmap list_fmap foldl length]. cbn [epoch_arg]. rewrite IH.
  symmetry. apply Nat.iter_succ_r.
Qed.

(** X21: one call of [step] steps the wrapped scheduler as many times
    as the observed global step is ahead of the counter, each time with the
    [epoch] argument it was given, not at all when it is not ahead; the
    counter ends at the larger of the two and the optimizer is kept. *)
Theorem step_steps_scheduler_by_the_lag (self : t S) (epoch : option Z) (local_epoch : Z) :
  let self' := step_scheduler local_epoch epoch self in
  scheduler self'
    = Nat.iter (Z.to_nat (local_epoch - current_step self)) (scheduler_step epoch)
               (scheduler self)
  /\ current_step self' = Z.max (current_step self) local_epoch
  /\ optimizer self' = optimizer self.
Proof.
  unfold step_scheduler. rewrite step_spec. cbn.
  rewrite deliver_same_epoch, length_seqZ. repeat split.
Qed.

(** X22: the state dictionaries pass the counter by.  [load_state_dict]
    keeps the counter and the optimizer, so a later [step] forwards what it
    would have forwarded; [state_dict] is the wrapped scheduler's own,
    whatever the counter; and a new wrapper, put around a scheduler and
    given a saved state, still starts at -1: its first [step] forwards one
    call for every global step from 0 to the observed one, whatever state
    was loaded. *)
Theorem state_dicts_leave_the_counter (self : t S) (d : D) (epoch : option Z)
    (local_epoch c : Z) (opt : HivemindOptimizer) (s : S) :
  current_step (load_state_dict d self) = current_step self
  /\ optimizer (load_state_dict d self) = optimizer self
  /\ snd (step local_epoch epoch (load_state_dict d self))
     = snd (step local_epoch epoch self)
  /\ state_dict (load_state_dict d self)
     = scheduler_state_dict (scheduler_load_state_dict d (scheduler self))
  /\ state_dict (set_current_step c self) = state_dict self
  /\ global_step_of <$> snd (step local_epoch epoch (load_state_dict d (__init__ opt s)))
     = seqZ 0 (local_epoch + 1).
Proof.
  repeat split.
  - rewrite !step_spec. reflexivity.
  - rewrite step_global_steps. cbn.
    destruct (Z.le_gt_cases local_epoch (-1)).
    + rewrite !seqZ_nil by lia. reflexivity.
    + f_equal. lia.
Qed.

End WrappedFacts.

Lemma step_steps_scheduler_by_the_lag_witness :
  scheduler (@step_scheduler Z Z counting 2 None (__init__ o_sample 10)) = 13.
Proof.
  destruct (@step_steps_scheduler_by_the_lag Z Z counting
              (__init__ o_sample 10) None 2) as [H _].
  rewrite H. reflexivity.
Defined.

Lemma state_dicts_leave_the_counter_witness :
  global_step_of
    <$> snd (step 2 None (@load_state_dict Z Z counting 40 (__init__ o_sample 0)))
  = [0; 1; 2].
Proof.
  destruct (@state_dicts_leave_the_counter Z Z counting
              (__init__ o_sample 0) 40 None 2 0 o_sample 0) as (_ & _ & _ & _ & _ & H).
  rewrite H. reflexivity.
Defined.

(** X23: the attributes of a new wrapper: every attribute of the wrapped
    scheduler is there under its name with its value, except [step] and
    [__del__], which are never copied, and [optimizer], [scheduler] and
    [current_step], which are the wrapper's own (the scheduler's
    [optimizer] attribute is replaced by the external optimizer). *)
Theorem wrapper_copies_scheduler_attributes (scheduler_dict : gmap string pyval)
    (optimizer scheduler : pyval) (k : string) :
  let d := instance_dict scheduler_dict optimizer scheduler in
  (k ∉ ["step"; "__del__"; "optimizer"; "scheduler"; "current_step"] ->
   d !! k = scheduler_dict !! k)
  /\ d !! "step" = None
  /\ d !! "__del__" = None
  /\ d !! "optimizer" = Some optimizer
  /\ d !! "scheduler" = Some scheduler
  /\ d !! "current_step" = Some (PInt (-1)).
Proof.
  cbn zeta. unfold instance_dict. split; [|repeat split].
  - intros Hk.
    rewrite !lookup_insert_ne by (intros <-; apply Hk; repeat constructor).
    apply option_eq. intros v. rewrite map_lookup_filter_Some. cbn.
    split; [intros [? _]; assumption|].
    intros Hv. split; [assumption|].
    split; intros ->; apply Hk; repeat constructor.
  - rewrite !lookup_insert_ne by discriminate.
    apply map_lookup_filter_None. right. intros v _ [H _]. apply H. reflexivity.
  - rewrite !lookup_insert_ne by discriminate.
    apply map_lookup_filter_None. right. intros v _ [_ H]. apply H. reflexivity.
  - rewrite !lookup_insert_ne by discriminate. apply lookup_insert_eq.
  - rewrite lookup_insert_ne by discriminate. apply lookup_insert_eq.
  - apply lookup_insert_eq.
Qed.

Lemma wrapper_copies_scheduler_attributes_witness :
  instance_dict {[ "base_lrs" := PObj "[0.1]"; "optimizer" := PObj "SGD" ]}
                (PObj "hivemind.Optimizer") (PObj "StepLR") !! "base_lrs"
  = Some (PObj "[0.1]").
Proof.
  destruct (wrapper_copies_scheduler_attributes
              {[ "base_lrs" := PObj "[0.1]"; "optimizer" := PObj "SGD" ]}
              (PObj "hivemind.Optimizer") (PObj "StepLR") "base_lrs") as [H _].
  rewrite H.
  - vm_compute. reflexivity.
  - intros Hin. repeat (apply elem_of_cons in Hin as [Hin|Hin]; [discriminate|]).
    apply elem_of_nil in Hin. exact Hin.
Defined.

End FurtherShim.
